(** * School-zone warning pipeline: road points, street images, predictions

    A shallow embedding of the notebook stages

    - [pipeline_schoolroads_road_points]   ([densify_geometry],
      [gather_road_points]),
    - [pipeline_schoolroads_street_images] ([gather_google_streetview_meta],
      [download_google_streetview_image] and the [df.apply] around it),
    - [pipeline_schoolroads_model_predict] ([gather_predictions], the
      [df.apply] around it and the [dropna] export; the choice of the model
      file),
    - [pipeline_schoolroads_schools] (download, unzip, read, rename and
      filter of the schools table).

    Python floats are read as exact real numbers in the geometric part
    (module [Sampler]: the path, its interpolation, the bearings), and as
    the binary64 numbers that they are where a count or a comparison hangs
    on their rounding (module [Sampler64]: [np.arange] in
    [densify_geometry]); in the other stages a float only ever gets formatted
    into a string, so it is kept abstract together with its formatter.
    Exceptions are values of [exn]; a computation that may raise returns a
    [result]. *)

From Stdlib Require Import Ascii String.
From stdpp Require Import gmap strings pretty.
From Stdlib Require Import Reals Lra Lia Rgeom R_Ifp.
From Stdlib Require Import QArith.
Close Scope Q_scope.
From Stdlib Require Floats Uint63.

(** A decimal float literal stands for the nearest binary64 number, as in
    Python. *)
Set Warnings "-inexact-float".

(** ** Exceptions and results

    [ArangeError] stands for the exception by which [np.arange] refuses a
    length: a quotient that is no number, or more values than it can count
    or allocate. Its class ([ValueError], [OverflowError] or [MemoryError])
    depends on the length and on the version of numpy. *)

Inductive exn : Type :=
| NameError (name : string)
| ValueError
| IndexError
| AttributeError (attr : string)
| KeyError (key : string)
| ConnectionError
| ZeroDivisionError
| ArangeError.

Inductive result (A : Type) : Type :=
| Ok (a : A)
| Raise (e : exn).
Arguments Ok {A} a.
Arguments Raise {A} e.

Definition rbind {A B} (m : result A) (k : A -> result B) : result B :=
  match m with
  | Ok a => k a
  | Raise e => Raise e
  end.

#[global] Instance result_ret : MRet result := @Ok.
#[global] Instance result_bind : MBind result := fun A B k m => rbind m k.

Definition returns {A} (m : result A) : Prop := exists a, m = Ok a.

(** Python list indexing [l[i]]: negative indices count from the end, an index
    out of range raises [IndexError]. *)
Definition py_index {A} (l : list A) (i : Z) : result A :=
  let j := if (i <? 0)%Z then (i + Z.of_nat (length l))%Z else i in
  if (j <? 0)%Z then Raise IndexError
  else match nth_error l (Z.to_nat j) with
       | Some a => Ok a
       | None => Raise IndexError
       end.
Arguments py_index : simpl never.

(** ** Stage 2: road point sampler *)

Module Sampler.

Open Scope R_scope.

(** A coordinate tuple as shapely yields it: [(x, y)], that is (lon, lat). *)
Abbreviation point := (R * R)%type.

Definition distance (p q : point) : R :=
  dist_euc (fst p) (snd p) (fst q) (snd q).

Definition ceilZ (x : R) : Z := (1 - up (- x))%Z.
Definition floorZ (x : R) : Z := Int_part x.

(** [numpy] *)
Module np.

(** [np.arange(start, stop, step)] on floats read as real numbers:
    [ceil((stop - start) / step)] values [start + i * step], with the exact
    quotient and the exact products, and of any length; the division by a
    zero step raises. [Sampler64.np.arange] is the function as numpy rounds
    and bounds it. *)
Definition arange (start stop step : R) : result (list R) :=
  if Req_dec_T step 0 then Raise ZeroDivisionError
  else
    let n := Z.to_nat (ceilZ ((stop - start) / step)) in
    Ok (map (fun i => start + INR i * step) (seq 0 n)).

End np.

(** [shapely]: a line string is a non-empty vertex sequence; [length] is the
    planar length, [interpolate] the linear referencing of GEOS (a negative
    distance is taken backwards from the end, the result is clamped to the
    line). *)
Module shapely.

Record LineString : Type := mkLine { first : point; rest : list point }.

Fixpoint path_length (p : point) (ps : list point) : R :=
  match ps with
  | [] => 0
  | q :: ps' => distance p q + path_length q ps'
  end.

Definition length (g : LineString) : R := path_length (first g) (rest g).

Definition along (p q : point) (frac : R) : point :=
  (fst p + frac * (fst q - fst p), snd p + frac * (snd q - snd p)).

Fixpoint walk (p : point) (ps : list point) (d : R) : point :=
  match ps with
  | [] => p
  | q :: ps' =>
      let seg := distance p q in
      if Rlt_dec d seg then along p q (d / seg) else walk q ps' (d - seg)
  end.

Definition interpolate (g : LineString) (d : R) : point :=
  let d := if Rlt_dec d 0 then length g + d else d in
  if Rle_dec d 0 then first g else walk (first g) (rest g) d.

End shapely.

(** *** [densify_geometry] *)

(** Names bound in the notebook when [densify_geometry] runs: the parameters
    cell, the imports and the two functions; and the names the body of
    [densify_geometry] has assigned when it reaches the [crs] test. *)
Definition notebook_globals : list string :=
  ["name"; "link"; "unzip"; "target"; "lat_colname"; "lon_colname";
   "os"; "gpd"; "nx"; "np"; "ox"; "pd"; "shapely"; "sp_ops"; "Proj";
   "Transformer"; "LinearRing"; "LineString";
   "densify_geometry"; "gather_road_points"; "gdf"]%string.

Definition densify_locals : list string :=
  ["line_geometry"; "step"; "crs"; "length_m"; "xy";
   "distance_along_old_line"; "point"; "xp"; "yp"]%string.

Definition load_name (n : string) : result unit :=
  if bool_decide (n ∈ densify_locals ++ notebook_globals) then Ok tt
  else Raise (NameError n).

(** What [gpd.geoseries.GeoSeries(new_line, crs=crs)] would hold. *)
Record GeoSeries : Type := mkGeoSeries { gs_line : unit; gs_crs : string }.

(** The function returns the list [xy] when [crs] is [None] and a
    [GeoSeries] otherwise. *)
Definition densified (crs : option string) : Type :=
  match crs with
  | None => list point
  | Some _ => GeoSeries
  end.

Definition densify_geometry (line_geometry : shapely.LineString) (step : R)
    (crs : option string) : result (densified crs) :=
  let length_m := shapely.length line_geometry in
  ds ← np.arange 0 length_m step;
  let xy :=
    fold_left
      (fun xy distance_along_old_line =>
         let point := shapely.interpolate line_geometry distance_along_old_line in
         let '(xp, yp) := (fst point, snd point) in
         xy ++ [(xp, yp)])
      ds [] in
  match crs return result (densified crs) with
  | Some c =>
      new_line ← load_name "new_line";
      Ok (mkGeoSeries new_line c)
  | None => Ok xy
  end.

(** [osmnx]: [ox.bearing.get_bearing(origin_point, destination_point)], both
    arguments read as [(lat, lng)] tuples in degrees; the result is the
    initial compass bearing from the origin to the destination in [0, 360). *)
Module ox.

Definition radians (d : R) : R := d * PI / 180.
Definition degrees (r : R) : R := r * 180 / PI.

(** [math.atan2(y, x)] *)
Definition atan2 (y x : R) : R :=
  if Rlt_dec 0 x then atan (y / x)
  else if Rlt_dec x 0 then
    (if Rle_dec 0 y then atan (y / x) + PI else atan (y / x) - PI)
  else if Rlt_dec 0 y then PI / 2
  else if Rlt_dec y 0 then - (PI / 2)
  else 0.

(** Python's [a % m] on floats, for [m > 0]. *)
Definition fmod (a m : R) : R := a - m * IZR (floorZ (a / m)).

Definition get_bearing (origin_point destination_point : point) : R :=
  let lat1 := radians (fst origin_point) in
  let lat2 := radians (fst destination_point) in
  let diff_lng := radians (snd destination_point - snd origin_point) in
  let x := sin diff_lng * cos lat2 in
  let y := cos lat1 * sin lat2 - sin lat1 * cos lat2 * cos diff_lng in
  let initial_bearing := atan2 x y in
  let initial_bearing := degrees initial_bearing in
  fmod (initial_bearing + 360) 360.

End ox.

(** *** [gather_road_points] *)

(** A row of the road table [gdf]. *)
Record road : Type := mkRoad {
  geometry : option shapely.LineString;
  highway : string;
  name : string;
  length : R
}.

(** A row of the resulting table. *)
Record road_point : Type := mkRoadPoint {
  road_name : string;
  lon : R;
  lat : R;
  road_length : R;
  bearing : R
}.

(** The five accumulators of the loop. *)
Record columns : Type := mkColumns {
  lats : list R;
  lons : list R;
  road_names : list string;
  road_lengths : list R;
  bearings : list R
}.

Definition no_columns : columns := mkColumns [] [] [] [] [].

(** A [for] loop over a list whose body may raise. *)
Fixpoint for_each {S A} (xs : list A) (body : S -> A -> result S) (s : S)
    : result S :=
  match xs with
  | [] => Ok s
  | x :: xs' => s' ← body s x; for_each xs' body s'
  end.

(** The mask [~(gdf["geometry"].isna()) & ~(gdf["highway"] == "service")]. *)
Definition selected (rrow : road) : bool :=
  negb (bool_decide (geometry rrow = None))
  && negb (bool_decide (highway rrow = "service"%string)).

(** [densify_geometry(rrow["geometry"], step=0.0002)]; a null geometry has no
    [length] attribute. *)
Definition densify_row (rrow : road) : result (list point) :=
  match geometry rrow with
  | None => Raise (AttributeError "length")
  | Some g => densify_geometry g 0.0002 None
  end.

Definition bearing_body (densified_points : list point)
    (bearings : list R) (x : nat) : result (list R) :=
  bearing ←
    (if bool_decide (x = 0%nat) then
       a ← py_index densified_points (Z.of_nat x + 1);
       b ← py_index densified_points (Z.of_nat x);
       Ok (ox.get_bearing a b)
     else
       a ← py_index densified_points (Z.of_nat x);
       b ← py_index densified_points (Z.of_nat x - 1);
       Ok (ox.get_bearing a b));
  Ok (bearings ++ [bearing]).

Definition road_body (acc : columns) (rrow : road) : result columns :=
  densified_points ← densify_row rrow;
  if (1 <? List.length densified_points)%nat then
    let lats := lats acc ++ map snd densified_points in
    let lons := lons acc ++ map fst densified_points in
    let road_names := road_names acc ++ map (fun _ => name rrow) densified_points in
    let road_lengths := road_lengths acc ++ map (fun _ => length rrow) densified_points in
    bearings ←
      for_each (seq 0 (List.length densified_points))
        (bearing_body densified_points) (bearings acc);
    Ok (mkColumns lats lons road_names road_lengths bearings)
  else Ok acc.

(** [pd.DataFrame.from_dict] of the five columns: they must have one length. *)
Fixpoint zip_columns (ns : list string) (xs ys ls bs : list R)
    : result (list road_point) :=
  match ns, xs, ys, ls, bs with
  | [], [], [], [], [] => Ok []
  | n :: ns', x :: xs', y :: ys', l :: ls', b :: bs' =>
      rows ← zip_columns ns' xs' ys' ls' bs';
      Ok (mkRoadPoint n x y l b :: rows)
  | _, _, _, _, _ => Raise ValueError
  end.

Definition from_dict (c : columns) : result (list road_point) :=
  zip_columns (road_names c) (lons c) (lats c) (road_lengths c) (bearings c).

Definition gather_road_points (gdf : list road) : result (list road_point) :=
  c ← for_each (List.filter selected gdf) road_body no_columns;
  from_dict c.

(** *** Closed forms of the loops

    They state what the loops above compute; the properties below relate them
    to the loops. *)

(** The points of a call of [densify_geometry] with [crs = None]. *)
Definition samples (g : shapely.LineString) (step : R) : list point :=
  map (fun i => shapely.interpolate g (0 + INR i * step))
      (seq 0 (Z.to_nat (ceilZ ((shapely.length g - 0) / step)))).

(** The bearing appended for index [x] of a road with points [pts]. *)
Definition bearing_of (pts : list point) (x : nat) : R :=
  if bool_decide (x = 0%nat)
  then ox.get_bearing (nth 1 pts (0, 0)) (nth 0 pts (0, 0))
  else ox.get_bearing (nth x pts (0, 0)) (nth (x - 1) pts (0, 0)).

(** The rows a road of the table contributes. *)
Definition road_rows (rrow : road) : list road_point :=
  if selected rrow then
    match geometry rrow with
    | Some g =>
        let pts := samples g 0.0002 in
        if (1 <? List.length pts)%nat then
          map (fun x =>
                 mkRoadPoint (name rrow)
                   (fst (nth x pts (0, 0))) (snd (nth x pts (0, 0)))
                   (length rrow) (bearing_of pts x))
              (seq 0 (List.length pts))
        else []
    | None => []
    end
  else [].

(** The five accumulators hold the columns of [rows]. *)
Definition represents (c : columns) (rows : list road_point) : Prop :=
  road_names c = map road_name rows
  /\ lons c = map lon rows
  /\ lats c = map lat rows
  /\ road_lengths c = map road_length rows
  /\ bearings c = map bearing rows.

(** *** Sample roads *)

(** A straight road from the origin along the first axis. *)
Definition straight (b : R) : shapely.LineString :=
  shapely.mkLine (0, 0) [(b, 0)].

(** A road running 0.0005 degrees along the first axis. *)
Definition elm_street : road :=
  mkRoad (Some (straight 0.0005)) "residential" "Elm Street" 55.

End Sampler.

(** ** Stage 2 in double precision: [densify_geometry]

    The same function on Python's floats as they are, the binary64 numbers
    of IEEE 754: [np.arange] finds its length and its values by rounded
    operations. Of the line string the function uses the attribute [length]
    and the method [interpolate], and a line string is taken as these two. *)

Module Sampler64.

Import PrimFloat FloatOps SpecFloat.

Abbreviation point := (float * float)%type.

(** The float of an index. *)
Definition of_nat (i : nat) : float :=
  of_uint63 (Uint63Axioms.of_Z (Z.of_nat i)).

(** [ceil] and [floor] of a float, as integers; none for an infinity and for
    NaN. *)
Definition ceiling (x : float) : option Z :=
  match Prim2SF x with
  | S754_zero _ => Some 0%Z
  | S754_finite s m e =>
      let v := cond_Zopp s (Zpos m) in
      Some (if (0 <=? e)%Z then v * 2 ^ e else - (- v / 2 ^ (- e)))%Z
  | S754_infinity _ | S754_nan => None
  end.


(** The number that a finite float stands for, as a fraction and as a real
    number, and the point of the plane that a pair of floats stands for. *)
Definition value (x : float) : Q :=
  match Prim2SF x with
  | S754_finite s m e =>
      let v := cond_Zopp s (Zpos m) in
      if (0 <=? e)%Z then inject_Z (v * 2 ^ e) else Qmake v (Z.to_pos (2 ^ (- e)))
  | S754_zero _ | S754_infinity _ | S754_nan => 0%Q
  end.



(** [numpy] *)
Module np.

(** The least and the greatest array length, [NPY_MIN_INTP] and
    [NPY_MAX_INTP] of a 64-bit platform. *)
Definition min_intp : Z := (- 2 ^ 63)%Z.
Definition max_intp : Z := (2 ^ 63 - 1)%Z.

(** The value at index [i] of the array: the first two are stored as they
    are, the others are filled in as [start + i * delta] with [delta] the
    difference of the first two. *)
Definition item (start next : float) (i : nat) : float :=
  match i with
  | 0%nat => start
  | 1%nat => next
  | _ => (start + of_nat i * (next - start))%float
  end.

(** [np.arange(start, stop, step)] on floats. The length is the [ceil] of
    the quotient that Python's division rounds to a float; the division by a
    zero step raises; [capacity] is the greatest length that numpy can
    allocate in the run. *)
Definition arange (capacity : Z) (start stop step : float)
    : result (list float) :=
  let delta := (stop - start)%float in
  if (step =? 0)%float then Raise ZeroDivisionError
  else
    match ceiling (delta / step) with
    | None => Raise ArangeError
    | Some len =>
        if (len <? min_intp)%Z || (max_intp <? len)%Z then Raise ArangeError
        else if (len <=? 0)%Z then Ok []
        else if (capacity <? len)%Z then Raise ArangeError
        else Ok (map (item start (start + step)) (seq 0 (Z.to_nat len)))
    end.

End np.

(** [shapely] *)
Module shapely.

Record LineString : Type := mkLineString {
  length : float;
  interpolate : float -> point
}.

End shapely.

Definition densified (crs : option string) : Type :=
  match crs with
  | None => list point
  | Some _ => Sampler.GeoSeries
  end.

Definition densify_geometry (capacity : Z)
    (line_geometry : shapely.LineString) (step : float)
    (crs : option string) : result (densified crs) :=
  let length_m := shapely.length line_geometry in
  ds ← np.arange capacity 0 length_m step;
  let xy :=
    fold_left
      (fun xy distance_along_old_line =>
         let point := shapely.interpolate line_geometry distance_along_old_line in
         let '(xp, yp) := (fst point, snd point) in
         xy ++ [(xp, yp)])
      ds [] in
  match crs return result (densified crs) with
  | Some c =>
      new_line ← Sampler.load_name "new_line";
      Ok (Sampler.mkGeoSeries new_line c)
  | None => Ok xy
  end.

(** The values of [np.arange(0, stop, step)] for a step above zero: 0, the
    step, and from the third one on the product of the index and the step,
    rounded to a float. *)
Definition multiple (step : float) (i : nat) : float :=
  match i with
  | 0%nat => 0%float
  | 1%nat => step
  | _ => (of_nat i * step)%float
  end.

(** The points of a call with [crs = None] and a step above zero that
    [np.arange] does not refuse. *)
Definition samples (line_geometry : shapely.LineString) (step : float)
    (len : Z) : list point :=
  map (fun i => shapely.interpolate line_geometry (multiple step i))
      (seq 0 (Z.to_nat len)).


(** [LineString([(0, 0), (b, 0)])] for [b > 0], as shapely answers on it: the
    point at the fraction [d / b] of its one segment; a negative distance is
    taken from the end, and the result stays on the line. *)
Definition segment (b : float) : shapely.LineString :=
  shapely.mkLineString b
    (fun d =>
       let d := if (d <? 0)%float then (b + d)%float else d in
       if (d <=? 0)%float then (0, 0)%float
       else if (d <? b)%float then ((b - 0) * (d / b) + 0, (0 - 0) * (d / b) + 0)%float
       else (b, 0)%float).

End Sampler64.

(** ** Stateful stages

    A computation over a state [S] that may raise; the state reached when it
    raises is kept, as a Python exception leaves earlier effects in place. *)

Definition st (S A : Type) : Type := S -> result A * S.

#[global] Instance st_ret {S} : MRet (st S) := fun A a s => (Ok a, s).
#[global] Instance st_bind {S} : MBind (st S) := fun A B k m s =>
  match m s with
  | (Ok a, s') => k a s'
  | (Raise e, s') => (Raise e, s')
  end.

Definition lift {S A} (r : result A) : st S A := fun s => (r, s).

Fixpoint apply_rows {S A B} (f : A -> st S B) (rows : list A) : st S (list B) :=
  match rows with
  | [] => mret []
  | row :: rows' => b ← f row; bs ← apply_rows f rows'; mret (b :: bs)
  end.

(** ** Stage 3: street imagery fetcher *)

Module Fetcher.

(** [str.replace(",", "_")] *)
Fixpoint replace_comma (s : string) : string :=
  match s with
  | EmptyString => EmptyString
  | String c s' =>
      String (if bool_decide (c = ","%char) then "_"%char else c) (replace_comma s')
  end.

Fixpoint comma_free (s : string) : bool :=
  match s with
  | EmptyString => true
  | String c s' => negb (bool_decide (c = ","%char)) && comma_free s'
  end.

(** One entry of the [params] list handed to [google_streetview]. *)
Record params : Type := mkParams {
  size : string;
  location : string;
  heading : string;
  key : string
}.

(** One entry of [results.metadata]. *)
Record metadata_entry : Type := mkMeta { status : string }.

(** A [google_streetview.api.results] object. *)
Record results : Type := mkResults {
  r_params : list params;
  r_links : list string;
  r_metadata : list metadata_entry
}.

(** What the provider answers to a lookup: the image links and the metadata. *)
Record response : Type := mkResponse {
  resp_links : list string;
  resp_metadata : list metadata_entry
}.

(** A cell of the [google_streetview_meta] column. *)
Inductive meta_cell : Type :=
| Results (r : results)
| PyNone
| PdNA.

(** The file system under the data directory and the log of image requests
    ([requests.get]) issued so far. *)
Record world : Type := mkWorld {
  files : gmap string string;
  fetched : list string
}.

(** A row of the road points table; [float] is a float64 cell. *)
Record row (float : Type) : Type := mkRow {
  road_name : string;
  lon : float;
  lat : float;
  road_length : float;
  bearing : float
}.
Arguments mkRow {float}.
Arguments road_name {float}.
Arguments lon {float}.
Arguments lat {float}.
Arguments road_length {float}.
Arguments bearing {float}.

Section Stage.

Context {float : Type}.

(** [str(x)] and ["{}".format(x)] of a float. *)
Variable format_float : float -> string.

(** The metadata lookup of the provider behind
    [google_streetview.api.results(params)]: it raises or answers. *)
Variable metadata_lookup : list params -> result response.

(** The body returned by [requests.get(url)], if the request succeeds. *)
Variable http_get : string -> result string.

(** [google_streetview.api.results(params)] keeps the [params] it was given. *)
Definition api_results (ps : list params) : result results :=
  resp ← metadata_lookup ps;
  Ok (mkResults ps (resp_links resp) (resp_metadata resp)).

Definition gather_google_streetview_meta (lat lon bearing : float)
    (creds : string) : meta_cell :=
  let try : result meta_cell :=
    let params :=
      [ mkParams "640x640"
          (format_float lat +:+ "," +:+ format_float lon)
          (format_float bearing)
          creds ] in
    results ← api_results params;
    m ← py_index (r_metadata results) 0;
    if bool_decide (status m = "OK") then Ok (Results results)
    else Ok PyNone in
  match try with
  | Ok v => v
  | Raise _ => PdNA
  end.

(** Every file of [w] is still there in [w']. *)
Definition keeps (w w' : world) : Prop :=
  forall path : string, is_Some (files w !! path) -> is_Some (files w' !! path).

(** The entry of [params] built for a row. *)
Definition params_of (lat lon bearing : float) (creds : string) : params :=
  mkParams "640x640" (format_float lat +:+ "," +:+ format_float lon)
    (format_float bearing) creds.

(** Attribute access on a cell of the meta column. *)
Definition get_metadata (v : meta_cell) : result (list metadata_entry) :=
  match v with
  | Results r => Ok (r_metadata r)
  | PyNone | PdNA => Raise (AttributeError "metadata")
  end.

Definition get_links (v : meta_cell) : result (list string) :=
  match v with
  | Results r => Ok (r_links r)
  | PyNone | PdNA => Raise (AttributeError "links")
  end.

Definition get_params (v : meta_cell) : result (list params) :=
  match v with
  | Results r => Ok (r_params r)
  | PyNone | PdNA => Raise (AttributeError "params")
  end.

(** [v != None]: only [None] is; [pd.NA] leaves the comparison with [None]
    to Python's identity test. *)
Definition ne_None (v : meta_cell) : bool :=
  match v with
  | PyNone => false
  | Results _ | PdNA => true
  end.

Definition isfile (path : string) : st world bool :=
  fun w => (Ok (bool_decide (is_Some (files w !! path))), w).

Definition requests_get (url : string) : st world string :=
  fun w => (http_get url, mkWorld (files w) (fetched w ++ [url])).

Definition write_file (path data : string) : st world unit :=
  fun w => (Ok tt, mkWorld (<[path := data]> (files w)) (fetched w)).

Definition image_filename (ps : params) : string :=
  replace_comma (location ps) +:+ "_" +:+ heading ps +:+ ".jpg".

Definition download_google_streetview_image
    (google_streetview_api_results : meta_cell) (data_dir : string)
    : st world (option string) :=
  metadata ← lift (get_metadata google_streetview_api_results);
  m ← lift (py_index metadata 0);
  if negb (bool_decide (status m = "OK")) then mret None
  else
    links ← lift (get_links google_streetview_api_results);
    url ← lift (py_index links 0);
    params ← lift (get_params google_streetview_api_results);
    p ← lift (py_index params 0);
    let filename := image_filename p in
    let filepath := data_dir +:+ "/" +:+ filename in
    present ← isfile filepath;
    _ ← (if negb present then
           img_data ← requests_get url;
           write_file filepath img_data
         else mret tt);
    mret (Some filepath).

(** The lambda of the second [df.apply]. *)
Definition image_cell (data_dir : string) (meta : meta_cell)
    : st world (option string) :=
  if ne_None meta then download_google_streetview_image meta data_dir
  else mret None.

(** The notebook from the road points table to the exported table: the first
    100 rows, their meta column, their image column. *)
Definition street_images (creds data_dir : string) (df : list (row float))
    : st world (list (row float * option string)) :=
  let df := take 100 df in
  let meta :=
    map (fun r => gather_google_streetview_meta (lat r) (lon r) (bearing r) creds)
      df in
  images ← apply_rows (image_cell data_dir) meta;
  mret (zip df images).

End Stage.

End Fetcher.

(** ** Stage 4: signage classifier *)

Module Predictor.

(** A row of the street view table read back from parquet. *)
Record image_row (float : Type) : Type := mkImageRow {
  road_name : option string;
  lon : float;
  lat : float;
  road_length : float;
  bearing : float;
  google_streetview_image : option string
}.
Arguments mkImageRow {float}.
Arguments road_name {float}.
Arguments lon {float}.
Arguments lat {float}.
Arguments road_length {float}.
Arguments bearing {float}.
Arguments google_streetview_image {float}.

(** A row after the [df.apply]: the two prediction columns are set together
    or not at all (then they read as NaN in the resulting frame). *)
Record predicted_row (float : Type) : Type := mkPredicted {
  source : image_row float;
  schoolsign : option (string * float)
}.
Arguments mkPredicted {float}.
Arguments source {float}.
Arguments schoolsign {float}.

Section Stage.

Context {float : Type}.

Variable isnan : float -> bool.

(** The loaded model: labels and probabilities for an image file. *)
Variable model : string -> result (list string * list float).

(** [prediction_model.classifyImage(image, result_count=1)]; the state is the
    log of the images it was called with. A cell that is no path ([None]) is
    no image file. *)
Definition classifyImage (image : option string)
    : st (list (option string)) (list string * list float) :=
  fun calls =>
    (match image with
     | Some path => model path
     | None => Raise ValueError
     end, calls ++ [image]).

Definition gather_predictions (row : image_row float)
    : st (list (option string)) (predicted_row float) :=
  '(predict, probability) ← classifyImage (google_streetview_image row);
  label ← lift (py_index predict 0);
  prob ← lift (py_index probability 0);
  mret (mkPredicted row (Some (label, prob))).

(** The lambda of the [df.apply]. *)
Definition predict_row (x : image_row float)
    : st (list (option string)) (predicted_row float) :=
  if bool_decide (google_streetview_image x ≠ None) then gather_predictions x
  else mret (mkPredicted x None).

(** [df.dropna()] keeps the rows without a missing cell. *)
Definition notna (r : predicted_row float) : bool :=
  bool_decide (is_Some (road_name (source r)))
  && negb (isnan (lon (source r)))
  && negb (isnan (lat (source r)))
  && negb (isnan (road_length (source r)))
  && negb (isnan (bearing (source r)))
  && bool_decide (is_Some (google_streetview_image (source r)))
  && match schoolsign r with
     | Some (_, prob) => negb (isnan prob)
     | None => false
     end.

Definition dropna (df : list (predicted_row float)) : list (predicted_row float) :=
  List.filter notna df.

(** The frame has the prediction columns when some row set them. *)
Definition has_columns (df : list (predicted_row float)) : bool :=
  existsb (fun r => bool_decide (is_Some (schoolsign r))) df.

(** [df.apply(..., axis=1)] with the lambda. On a table without rows pandas
    calls the lambda once, on a row whose cells are all NaN, to learn the
    form of the result, and drops what the call returns or raises: the NaN
    of the image cell is not [None], so the classifier is called with a cell
    that is no path. The table comes back as it is. *)
Definition apply_predictions (df : list (image_row float))
    : st (list (option string)) (list (predicted_row float)) :=
  match df with
  | [] => fun calls => (Ok [], snd (classifyImage None calls))
  | _ :: _ => apply_rows predict_row df
  end.

(** The notebook from the street view table to the export: the apply, the
    display of the two prediction columns, the [dropna] export. *)
Definition model_predict (df : list (image_row float))
    : st (list (option string)) (list (predicted_row float)) :=
  df ← apply_predictions df;
  _ ← lift (if has_columns df then Ok tt
            else Raise (KeyError "schoolsign_prediction"));
  mret (dropna df).

(** The model answers every image with at least one label and probability. *)
Definition answers : Prop :=
  forall path : string,
    exists label labels prob probs,
      model path = Ok (label :: labels, prob :: probs).

(** The image cells that are not [None], in table order. *)
Definition with_image (df : list (image_row float)) : list (option string) :=
  List.filter (fun c => bool_decide (c <> None))
    (map google_streetview_image df).

(** How a row of the applied table relates to the input row at its place. *)
Definition applied_to (x : image_row float) (r : predicted_row float) : Prop :=
  source r = x
  /\ (google_streetview_image x = None -> r = mkPredicted x None)
  /\ (google_streetview_image x <> None -> is_Some (schoolsign r)).

End Stage.

End Predictor.

(** ** Decimal cells and sample providers

    A float64 cell of a table, given by the decimal literal that Python
    prints for it, [mantissa / 10 ^ places]; a provider that answers every
    lookup, one that finds no imagery, one that is unreachable; an image
    server. They instantiate the stages on concrete tables. *)

Module Decimal.

Record decimal : Type := mkDecimal { mantissa : Z; places : nat }.

Fixpoint zeros (n : nat) : string :=
  match n with
  | O => ""
  | S n' => String "0" (zeros n')
  end.

Definition format (x : decimal) : string :=
  let scale := (10 ^ Z.of_nat (places x))%Z in
  let m := Z.abs (mantissa x) in
  let frac := pretty (Z.to_N (m mod scale)) in
  (if (mantissa x <? 0)%Z then "-" else "")
  +:+ pretty (Z.to_N (m / scale)) +:+ "."
  +:+ (if (places x =? 0)%nat then "0"
       else zeros (places x - String.length frac) +:+ frac).

(** Rounding to [n] places, ties to the even neighbour: the rounding that the
    specification attributes to the file name, which the notebook does not
    contain. *)
Definition round (n : nat) (x : decimal) : decimal :=
  if (places x <=? n)%nat then x
  else
    let k := (10 ^ Z.of_nat (places x - n))%Z in
    let m := Z.abs (mantissa x) in
    let q := (m / k)%Z in
    let r := (m mod k)%Z in
    let q' :=
      if (k <? 2 * r)%Z || ((2 * r =? k)%Z && Z.odd q) then (q + 1)%Z else q in
    mkDecimal (Z.sgn (mantissa x) * q') n.

(** The file name as the specification words it: rounded latitude and
    longitude, then the heading. *)
Definition rounded_filename (n : nat) (lat lon bearing : decimal) : string :=
  format (round n lat) +:+ "_" +:+ format (round n lon) +:+ "_"
  +:+ format bearing +:+ ".jpg".

End Decimal.

Module Providers.

Import Fetcher.

Definition link (p : params) : string :=
  "https://maps.googleapis.com/maps/api/streetview?location="
  +:+ location p +:+ "&heading=" +:+ heading p.

Definition available (ps : list params) : result response :=
  Ok (mkResponse (map link ps) (map (fun _ => mkMeta "OK") ps)).


Definition unreachable (ps : list params) : result response :=
  Raise ConnectionError.

Definition image_server (url : string) : result string := Ok "JFIF".

Definition no_files : world := mkWorld ∅ [].

(** A sample point at latitude 41.8799731, longitude -87.6790694, bearing
    0.037247. *)
Definition monroe : row Decimal.decimal :=
  mkRow "West Monroe Street"
    (Decimal.mkDecimal (-876790694) 7) (Decimal.mkDecimal 418799731 7)
    (Decimal.mkDecimal 200845 3) (Decimal.mkDecimal 37247 6).

(** The parameters and the results object of its lookup, and a data
    directory that already holds its image. *)
Definition monroe_params : params :=
  mkParams "640x640" "41.8799731,-87.6790694" "0.037247" "KEY".

Definition monroe_results : results :=
  mkResults [monroe_params] [link monroe_params] [mkMeta "OK"].

Definition stocked : world :=
  mkWorld {[ "data/41.8799731_-87.6790694_0.037247.jpg"%string := "JFIF"%string ]} [].

(** A model that sees a sign in every image, cells that are never NaN, and a
    street view table with one image present and one missing. *)
Definition signage_model (path : string)
    : result (list string * list Decimal.decimal) :=
  Ok (["schoolsign"%string], [Decimal.mkDecimal 100 0]).

Definition never_nan (x : Decimal.decimal) : bool := false.

Definition street_view_table : list (Predictor.image_row Decimal.decimal) :=
  [ Predictor.mkImageRow (Some "West Monroe Street"%string)
      (Decimal.mkDecimal (-876790694) 7) (Decimal.mkDecimal 418799731 7)
      (Decimal.mkDecimal 200845 3) (Decimal.mkDecimal 37247 6)
      (Some "data/41.8799731_-87.6790694_0.037247.jpg"%string);
    Predictor.mkImageRow (Some "West Monroe Street"%string)
      (Decimal.mkDecimal (-876792694) 7) (Decimal.mkDecimal 418799700 7)
      (Decimal.mkDecimal 200845 3) (Decimal.mkDecimal 37247 6)
      None ].

End Providers.

(** ** Further notions for the sampler *)

Module SamplerNotions.

Import Sampler.

(** The forward azimuth from [p] to [q], two points as shapely yields them,
    [(lon, lat)]: [get_bearing] reads its arguments as [(lat, lng)]. *)
Definition azimuth (p q : point) : R :=
  ox.get_bearing (snd p, fst p) (snd q, fst q).

End SamplerNotions.

(** ** Further notions for the fetch stage *)

Module FetcherNotions.

Import Fetcher.

(** No occurrence of the character [c] in [s]. *)
Fixpoint free_of (c : ascii) (s : string) : bool :=
  match s with
  | EmptyString => true
  | String a s' => negb (bool_decide (a = c)) && free_of c s'
  end.

Section Steps.

Context {float : Type}.
Variable format_float : float -> string.
Variable metadata_lookup : list params -> result response.
Variable http_get : string -> result string.

(** What one call of the download may do to the world. *)
Inductive download_step (w : world) : world -> Prop :=
| step_nothing : download_step w w
| step_failed (url : string) :
    download_step w (mkWorld (files w) (fetched w ++ [url]))
| step_written (url path img : string) :
    files w !! path = None ->
    http_get url = Ok img ->
    download_step w (mkWorld (<[path := img]> (files w)) (fetched w ++ [url])).

(** What the image cell of a row of a completed run says about the row. *)
Definition image_of (creds data_dir : string) (w' : world) (r : row float)
    (img : option string) : Prop :=
  match img with
  | Some path =>
      path = data_dir +:+ "/"
             +:+ image_filename (params_of format_float (lat r) (lon r) (bearing r) creds)
      /\ is_Some (files w' !! path)
      /\ exists res : results, gather_google_streetview_meta format_float metadata_lookup
           (lat r) (lon r) (bearing r) creds = Results res
  | None => gather_google_streetview_meta format_float metadata_lookup
           (lat r) (lon r) (bearing r) creds = PyNone
  end.

End Steps.

(** The world after the stage has fetched the image of [Providers.monroe]
    into an empty data directory. *)
Definition fetched_monroe : world :=
  mkWorld
    {[ "data/41.8799731_-87.6790694_0.037247.jpg"%string := "JFIF"%string ]}
    [Providers.link Providers.monroe_params].

End FetcherNotions.

(** ** Further notions for the classifier stage *)

Module PredictorNotions.

Import Predictor.

Section Rows.

Context {float : Type}.
Variable model : string -> result (list string * list float).

(** The row that the apply makes of [x]: with the first label and the first
    probability of the model for its image, or as it is. *)
Definition predicted_as (x : image_row float) (r : predicted_row float) : Prop :=
  match google_streetview_image x with
  | Some path =>
      exists label labels prob probs,
        model path = Ok (label :: labels, prob :: probs)
        /\ r = mkPredicted x (Some (label, prob))
  | None => r = mkPredicted x None
  end.

End Rows.

(** The two rows of [Providers.street_view_table], and a model that cannot
    read any image. *)
Definition row_with_image : image_row Decimal.decimal :=
  mkImageRow (Some "West Monroe Street"%string)
    (Decimal.mkDecimal (-876790694) 7) (Decimal.mkDecimal 418799731 7)
    (Decimal.mkDecimal 200845 3) (Decimal.mkDecimal 37247 6)
    (Some "data/41.8799731_-87.6790694_0.037247.jpg"%string).

Definition row_without_image : image_row Decimal.decimal :=
  mkImageRow (Some "West Monroe Street"%string)
    (Decimal.mkDecimal (-876792694) 7) (Decimal.mkDecimal 418799700 7)
    (Decimal.mkDecimal 200845 3) (Decimal.mkDecimal 37247 6)
    None.

Definition broken_model (path : string)
    : result (list string * list Decimal.decimal) :=
  Raise ValueError.


End PredictorNotions.

(** ** Stage 4, the choice of the model file

    [latest_file = max(list_of_files, key=os.path.getmtime)]: modification
    times are floats, compared only; they are read as rationals. *)

Module LatestModel.

(** The scan of [max(iterable, key=...)] after its first item: an item
    replaces the best one so far when its key is greater. *)
Fixpoint max_from {A} (key : A -> Q) (best : A) (items : list A) : A :=
  match items with
  | [] => best
  | item :: items' =>
      if negb (Qle_bool (key item) (key best))
      then max_from key item items'
      else max_from key best items'
  end.

(** [max(items, key=key)]; an empty sequence is a [ValueError]. *)
Definition py_max {A} (key : A -> Q) (items : list A) : result A :=
  match items with
  | [] => Raise ValueError
  | item :: items' => Ok (max_from key item items')
  end.

Definition latest_file (getmtime : string -> Q) (list_of_files : list string)
    : result string :=
  py_max getmtime list_of_files.

(** Three model files, the second and the third written at the same time. *)
Definition model_files : list string :=
  ["models/model_ex-001_acc-0.500000.h5";
   "models/model_ex-008_acc-1.000000.h5";
   "models/model_ex-009_acc-1.000000.h5"]%string.

Definition model_mtime (path : string) : Q :=
  if bool_decide (path = "models/model_ex-001_acc-0.500000.h5"%string)
  then (1605000000 # 1)%Q
  else (1605000600 # 1)%Q.

End LatestModel.

(** ** Stage 1: school locator

    The notebook [pipeline_schoolroads_schools]: download, unzip, read,
    rename, filter, up to the frame that [to_parquet] is called on. Paths
    are POSIX paths. Only the files of the data directory are tracked, under
    names that the system leaves as they are; no directory stands where the
    notebook looks for a file. *)

Module Schools.

Import Fetcher FetcherNotions.

(** What a cell of this notebook may fail with: an exception of the other
    stages, a missing file, a file that is no archive. [NotModelled] stands
    for what is left out: a file name that is not [plain], an archive with
    a member of its own name, and the masking of a frame with several
    columns of one label. *)
Inductive failure : Type :=
| Python (e : exn)
| FileNotFoundError (path : string)
| BadZipFile
| NotModelled.

Inductive outcome (A : Type) : Type :=
| Done (a : A)
| Fails (e : failure).
Arguments Done {A} a.
Arguments Fails {A} e.

Definition io (A : Type) : Type := world -> outcome A * world.

#[global] Instance io_ret : MRet io := fun A a w => (Done a, w).
#[global] Instance io_bind : MBind io := fun A B k m w =>
  match m w with
  | (Done a, w') => k a w'
  | (Fails e, w') => (Fails e, w')
  end.

Definition finish {A} (r : outcome A) : io A := fun w => (r, w).

(** [os.path.basename]: what follows the last slash. *)
Fixpoint basename (p : string) : string :=
  match p with
  | EmptyString => EmptyString
  | String c p' =>
      if free_of "/" p'
      then (if bool_decide (c = "/"%char) then p' else String c p')
      else basename p'
  end.

(** What follows the last dot of [s], with that dot. *)
Fixpoint from_last_dot (s : string) : option string :=
  match s with
  | EmptyString => None
  | String c s' =>
      match from_last_dot s' with
      | Some ext => Some ext
      | None => if bool_decide (c = "."%char) then Some (String c s') else None
      end
  end.

Fixpoint skip_dots (s : string) : string :=
  match s with
  | String c s' => if bool_decide (c = "."%char) then skip_dots s' else s
  | EmptyString => EmptyString
  end.

(** [os.path.splitext(p)[1]]: the extension of the last component, whose
    leading dots do not start one. *)
Definition extension (p : string) : string :=
  match from_last_dot (skip_dots (basename p)) with
  | Some ext => ext
  | None => EmptyString
  end.

(** A file name that names a file right under the data directory and nothing
    else: no slash and no NUL character in it, and not empty, [.] or [..]. *)
Definition plain (file : string) : bool :=
  free_of "/" file && free_of "000" file
  && negb (bool_decide (file = ""%string))
  && negb (bool_decide (file = "."%string))
  && negb (bool_decide (file = ".."%string)).

(** A cell of a frame and a frame: the labels of the columns and the rows. *)
Inductive cell (float : Type) : Type :=
| Str (s : string)
| Num (x : float)
| NaN.
Arguments Str {float} s.
Arguments Num {float} x.
Arguments NaN {float}.

Record frame (float : Type) : Type := mkFrame {
  columns : list string;
  rows : list (list (cell float))
}.
Arguments mkFrame {float}.
Arguments columns {float}.
Arguments rows {float}.

(** The parameters cell. *)
Record parameters : Type := mkParameters {
  name : string;
  link : string;
  unzip : bool;
  target : string;
  lat_colname : string;
  lon_colname : string
}.

Section Notebook.

Context {float : Type}.

(** [requests.get(link)]: the status code and the body, unless it raises. *)
Variable http : string -> result (Z * string).

(** The members of an archive, names and contents, if the bytes are one. *)
Variable zip_members : string -> option (list (string * string)).

(** [pd.read_excel] and [pd.read_csv] on the bytes of a file. *)
Variable read_excel : string -> result (frame float).
Variable read_csv : string -> result (frame float).

Variable cwd : string.
Variable P : parameters.

Definition data_path (file : string) : string :=
  cwd +:+ "/data/" +:+ file.

(** ["{}/data/{}".format(os.getcwd(), file)], for a plain name. *)
Definition in_data (file : string) : io string :=
  finish (if plain file then Done (data_path file) else Fails NotModelled).

Definition isfile (path : string) : io bool :=
  fun w => (Done (bool_decide (is_Some (files w !! path))), w).

Definition write (path data : string) : io unit :=
  fun w => (Done tt, mkWorld (<[path := data]> (files w)) (fetched w)).

Definition requests_get (url : string) : io (Z * string) :=
  fun w =>
    (match http url with
     | Ok response => Done response
     | Raise e => Fails (Python e)
     end, mkWorld (files w) (fetched w ++ [url])).

Definition read (path : string) : io string :=
  fun w =>
    (match files w !! path with
     | Some data => Done data
     | None => Fails (FileNotFoundError path)
     end, w).

(** The download cell. *)
Definition download_cell : io unit :=
  target_path ← in_data (basename (target P));
  present ← isfile target_path;
  if negb present then
    getfile ← requests_get (link P);
    if (fst getfile =? 200)%Z then
      archive_path ← in_data (basename (link P));
      write archive_path (snd getfile)
    else mret tt
  else mret tt.

(** [zip_ref.extractall(data)] on the archive of the name [archive]: the
    members in their order. A member of the name of the archive would be
    written over the archive while it is read. *)
Fixpoint extractall (archive : string) (members : list (string * string))
    : io unit :=
  match members with
  | [] => mret tt
  | (member, data) :: members' =>
      if bool_decide (member = archive) then finish (Fails NotModelled)
      else
        member_path ← in_data member;
        _ ← write member_path data;
        extractall archive members'
  end.

(** The unzip cell. *)
Definition unzip_cell : io unit :=
  if unzip P then
    target_path ← in_data (basename (target P));
    present ← isfile target_path;
    if negb present then
      archive_path ← in_data (basename (link P));
      archive ← read archive_path;
      match zip_members archive with
      | Some members => extractall (basename (link P)) members
      | None => finish (Fails BadZipFile)
      end
    else mret tt
  else mret tt.

Definition parse (reader : string -> result (frame float)) (file : string)
    : io (frame float) :=
  path ← in_data file;
  data ← read path;
  finish (match reader data with
          | Ok df => Done df
          | Raise e => Fails (Python e)
          end).

(** The read cell; [df] stays unbound for another extension. *)
Definition read_cell : io (option (frame float)) :=
  if bool_decide (extension (target P) = ".xlsx"%string) then
    df ← parse read_excel (target P); mret (Some df)
  else if bool_decide (extension (target P) = ".csv"%string) then
    df ← parse read_csv (target P); mret (Some df)
  else mret None.

(** The mapping [{lat_colname: "lat", lon_colname: "lon"}] on a label; of two
    equal keys of a dict display the later one counts. *)
Definition rename_label (label : string) : string :=
  if bool_decide (label = lon_colname P) then "lon"%string
  else if bool_decide (label = lat_colname P) then "lat"%string
  else label.

(** The rename cell. *)
Definition rename_cell (df : option (frame float)) : outcome (frame float) :=
  match df with
  | None => Fails (Python (NameError "df"))
  | Some df => Done (mkFrame (map rename_label (columns df)) (rows df))
  end.

(** The positions of a label among the labels, from [i] on. *)
Fixpoint positions (label : string) (labels : list string) (i : nat)
    : list nat :=
  match labels with
  | [] => []
  | l :: labels' =>
      if bool_decide (l = label) then i :: positions label labels' (S i)
      else positions label labels' (S i)
  end.

(** [cell == "Chicago"] *)
Definition is_chicago (c : cell float) : bool :=
  match c with
  | Str s => bool_decide (s = "Chicago"%string)
  | Num _ | NaN => false
  end.

(** The filter cell, [df[df["CITY"] == "Chicago"].head(5)]. *)
Definition filter_cell (df : frame float) : outcome (frame float) :=
  match positions "CITY" (columns df) 0 with
  | [] => Fails (Python (KeyError "CITY"))
  | [i] =>
      Done (mkFrame (columns df)
              (take 5 (List.filter (fun row => is_chicago (nth i row NaN))
                         (rows df))))
  | _ :: _ :: _ => Fails NotModelled
  end.

(** The cells on the frame that was read. *)
Definition standardize (df : option (frame float)) : outcome (frame float) :=
  match rename_cell df with
  | Done df => filter_cell df
  | Fails e => Fails e
  end.

(** The download cell and the unzip cell, one after the other. *)
Definition fetch : io unit :=
  _ ← download_cell; unzip_cell.

(** The notebook up to the frame that it exports. *)
Definition schools : io (frame float) :=
  _ ← fetch;
  df ← read_cell;
  finish (standardize df).

End Notebook.

(** The parameters of the notebook as it stands, a server that hands out an
    archive with the target in it, one that refuses, and a frame of schools. *)
Definition defaults : parameters :=
  mkParameters "usa"
    "https://nces.ed.gov/programs/edge/data/EDGE_GEOCODE_PUBLICSCH_1819.zip"
    true "EDGE_GEOCODE_PUBLICSCH_1819.xlsx" "LAT" "LON".

Definition serving (url : string) : result (Z * string) :=
  Ok (200%Z, "PK archive"%string).

Definition refusing (url : string) : result (Z * string) :=
  Ok (404%Z, "Not Found"%string).

Definition archive_members (data : string) : option (list (string * string)) :=
  if bool_decide (data = "PK archive"%string)
  then Some [("EDGE_GEOCODE_PUBLICSCH_1819.xlsx"%string, "sheet"%string)]
  else None.

Definition school_frame : frame Decimal.decimal :=
  mkFrame ["NAME"; "CITY"; "LAT"; "LON"]%string
    [ [Str "Ogden Elementary"; Str "Chicago";
       Num (Decimal.mkDecimal 418996 4); Num (Decimal.mkDecimal (-876289) 4)];
      [Str "Lincoln Elementary"; Str "Springfield";
       Num (Decimal.mkDecimal 397817 4); Num (Decimal.mkDecimal (-896501) 4)];
      [Str "Skinner West"; Str "Chicago";
       Num (Decimal.mkDecimal 418799 4); Num (Decimal.mkDecimal (-876600) 4)] ].

Definition sheet_reader (data : string) : result (frame Decimal.decimal) :=
  Ok school_frame.

(** Other parameters: the latitude taken from the city column, a target in
    an old spreadsheet format that is already in place, an archive that is
    not to be unzipped. *)
Definition city_as_latitude : parameters :=
  mkParameters "usa"
    "https://nces.ed.gov/programs/edge/data/EDGE_GEOCODE_PUBLICSCH_1819.zip"
    true "EDGE_GEOCODE_PUBLICSCH_1819.xlsx" "CITY" "LON".

Definition old_spreadsheet : parameters :=
  mkParameters "usa" "https://example.org/schools.xls" false "schools.xls"
    "LAT" "LON".

Definition old_spreadsheet_in_place : world :=
  mkWorld {[ "/home/user/data/schools.xls"%string := "sheet"%string ]} [].

Definition zipped_csv : parameters :=
  mkParameters "usa" "https://example.org/schools.zip" false "schools.csv"
    "LAT" "LON".

End Schools.

(** * Properties *)

(** Unfolds the operations of the stateful stages. *)
Ltac unfold_st := unfold mbind, st_bind, mret, st_ret, lift.

(** ** The sampler *)

Module SamplerFacts.

Import Sampler.
Open Scope R_scope.

(** *** Rounding to integers *)

Lemma ceilZ_bounds (x : R) : IZR (ceilZ x) - 1 < x <= IZR (ceilZ x).
Proof.
  unfold ceilZ. rewrite minus_IZR.
  destruct (archimed (- x)) as [Hgt Hle]. lra.
Qed.

Lemma floorZ_bounds (x : R) : IZR (floorZ x) <= x < IZR (floorZ x) + 1.
Proof.
  unfold floorZ, Int_part. rewrite minus_IZR.
  destruct (archimed x) as [Hgt Hle]. lra.
Qed.

Lemma ceilZ_unique (x : R) (z : Z) : IZR z - 1 < x <= IZR z -> ceilZ x = z.
Proof.
  intros [Hlo Hhi]. unfold ceilZ.
  assert (Hup : (1 - z)%Z = up (- x)).
  { apply tech_up; rewrite minus_IZR; lra. }
  rewrite <- Hup. lia.
Qed.

Lemma floorZ_unique (x : R) (z : Z) : IZR z <= x < IZR z + 1 -> floorZ x = z.
Proof.
  intros [Hlo Hhi]. unfold floorZ, Int_part.
  assert (Hup : (z + 1)%Z = up x).
  { apply tech_up; rewrite plus_IZR; lra. }
  rewrite <- Hup. lia.
Qed.

Lemma floorZ_le_ceilZ (x : R) : (floorZ x <= ceilZ x <= floorZ x + 1)%Z.
Proof.
  pose proof (ceilZ_bounds x) as [Hc1 Hc2].
  pose proof (floorZ_bounds x) as [Hf1 Hf2].
  split.
  - apply le_IZR. lra.
  - apply Z.lt_succ_r, lt_IZR. unfold Z.succ. rewrite !plus_IZR. lra.
Qed.

Lemma ceilZ_eq_floorZ (x : R) : ceilZ x = floorZ x <-> IZR (floorZ x) = x.
Proof.
  pose proof (ceilZ_bounds x) as [Hc1 Hc2].
  pose proof (floorZ_bounds x) as [Hf1 Hf2].
  split.
  - intros Heq. rewrite Heq in Hc2. lra.
  - intros Heq. apply ceilZ_unique. lra.
Qed.

Lemma ceilZ_nonneg (x : R) : 0 <= x -> (0 <= ceilZ x)%Z.
Proof.
  intros Hx. pose proof (ceilZ_bounds x) as [Hc1 Hc2].
  apply le_IZR. lra.
Qed.

(** *** Distances *)

Lemma distance_nonneg (p q : point) : 0 <= distance p q.
Proof. unfold distance, dist_euc. apply sqrt_pos. Qed.

Lemma distance_self (p : point) : distance p p = 0.
Proof. unfold distance. apply distance_refl. Qed.

Lemma distance_triangle (p q r : point) :
  distance p q <= distance p r + distance r q.
Proof. unfold distance. apply triangle. Qed.

Lemma distance_horizontal (a b c : R) : a <= b -> distance (a, c) (b, c) = b - a.
Proof.
  intros Hab. unfold distance, dist_euc. simpl.
  replace (Rsqr (a - b) + Rsqr (c - c)) with (Rsqr (b - a)) by (unfold Rsqr; ring).
  apply sqrt_Rsqr. lra.
Qed.

Lemma path_length_nonneg (p : point) (ps : list point) :
  0 <= shapely.path_length p ps.
Proof.
  revert p. induction ps as [|q ps IH]; intros p; simpl.
  - lra.
  - pose proof (distance_nonneg p q). specialize (IH q). lra.
Qed.

Lemma length_nonneg (g : shapely.LineString) : 0 <= shapely.length g.
Proof. apply path_length_nonneg. Qed.

(** A point on a segment, a fraction [frac] of the way, is [frac] times the
    length of the segment away from its start. *)
Lemma distance_along (p q : point) (a b : R) :
  a <= b ->
  distance (shapely.along p q a) (shapely.along p q b) = (b - a) * distance p q.
Proof.
  intros Hab. unfold distance, dist_euc, shapely.along. simpl.
  set (dx := fst q - fst p). set (dy := snd q - snd p).
  replace (Rsqr (fst p + a * dx - (fst p + b * dx))
           + Rsqr (snd p + a * dy - (snd p + b * dy)))
    with (Rsqr (b - a) * (Rsqr (fst p - fst q) + Rsqr (snd p - snd q)))
    by (unfold Rsqr, dx, dy; ring).
  rewrite sqrt_mult_alt by apply Rle_0_sqr.
  rewrite sqrt_Rsqr by lra. reflexivity.
Qed.

Lemma along_0 (p q : point) : shapely.along p q 0 = p.
Proof.
  unfold shapely.along. destruct p as [x y]. simpl. f_equal; ring.
Qed.

Lemma along_1 (p q : point) : shapely.along p q 1 = q.
Proof.
  unfold shapely.along. destruct p as [x y], q as [x' y']. simpl. f_equal; ring.
Qed.

(** *** Linear referencing is 1-Lipschitz in the arc length *)

Lemma distance_to_along (p q : point) (d : R) :
  0 <= d -> d < distance p q ->
  distance p (shapely.along p q (d / distance p q)) = d.
Proof.
  intros Hd Hlt.
  rewrite <- (along_0 p q) at 1.
  rewrite distance_along.
  - field. lra.
  - apply Rmult_le_pos; [lra|].
    left. apply Rinv_0_lt_compat. lra.
Qed.

Lemma distance_from_along (p q : point) (d : R) :
  0 <= d -> d < distance p q ->
  distance (shapely.along p q (d / distance p q)) q = distance p q - d.
Proof.
  intros Hd Hlt.
  rewrite <- (along_1 p q) at 3.
  rewrite distance_along.
  - field. lra.
  - apply Rmult_le_reg_r with (distance p q); [lra|].
    unfold Rdiv. rewrite Rmult_assoc, Rinv_l by lra. lra.
Qed.

Lemma walk_near_start (ps : list point) : forall (p : point) (d : R),
  0 <= d -> distance p (shapely.walk p ps d) <= d.
Proof.
  induction ps as [|q ps IH]; intros p d Hd; simpl.
  - rewrite distance_self. exact Hd.
  - destruct (Rlt_dec d (distance p q)) as [Hlt|Hge].
    + rewrite distance_to_along by assumption. lra.
    + apply Rnot_lt_le in Hge.
      pose proof (distance_triangle p (shapely.walk q ps (d - distance p q)) q).
      specialize (IH q (d - distance p q)). lra.
Qed.

Lemma walk_lipschitz (ps : list point) : forall (p : point) (a b : R),
  0 <= a -> a <= b ->
  distance (shapely.walk p ps a) (shapely.walk p ps b) <= b - a.
Proof.
  induction ps as [|q ps IH]; intros p a b Ha Hab; simpl.
  - rewrite distance_self. lra.
  - destruct (Rlt_dec a (distance p q)) as [Ha_in|Ha_out];
      destruct (Rlt_dec b (distance p q)) as [Hb_in|Hb_out].
    + rewrite distance_along.
      * right. field. lra.
      * apply Rmult_le_compat_r; [|exact Hab].
        left. apply Rinv_0_lt_compat. lra.
    + apply Rnot_lt_le in Hb_out.
      pose proof (distance_triangle
                    (shapely.along p q (a / distance p q))
                    (shapely.walk q ps (b - distance p q)) q) as Htri.
      rewrite distance_from_along in Htri by assumption.
      pose proof (walk_near_start ps q (b - distance p q)). lra.
    + lra.
    + apply Rnot_lt_le in Ha_out.
      specialize (IH q (a - distance p q) (b - distance p q)). lra.
Qed.

Lemma interpolate_lipschitz (g : shapely.LineString) (a b : R) :
  0 <= a -> a <= b ->
  distance (shapely.interpolate g a) (shapely.interpolate g b) <= b - a.
Proof.
  intros Ha Hab. unfold shapely.interpolate.
  destruct (Rlt_dec a 0) as [?|_]; [lra|].
  destruct (Rlt_dec b 0) as [?|_]; [lra|].
  destruct (Rle_dec a 0) as [Ha0|Ha0]; destruct (Rle_dec b 0) as [Hb0|Hb0].
  - rewrite distance_self. lra.
  - pose proof (walk_near_start (shapely.rest g) (shapely.first g) b). lra.
  - lra.
  - apply walk_lipschitz; lra.
Qed.

(** *** The loop of [densify_geometry] *)

Lemma append_loop {A B} (f : A -> B) (ds : list A) : forall acc : list B,
  fold_left (fun xy d => xy ++ [f d]) ds acc = acc ++ map f ds.
Proof.
  induction ds as [|d ds IH]; intros acc; simpl.
  - now rewrite app_nil_r.
  - rewrite IH, <- app_assoc. reflexivity.
Qed.

Lemma densify_geometry_samples (g : shapely.LineString) (step : R) :
  step <> 0 -> densify_geometry g step None = Ok (samples g step).
Proof.
  intros Hstep. unfold densify_geometry, np.arange, samples.
  destruct (Req_dec_T step 0) as [?|_]; [contradiction|].
  cbn. f_equal. rewrite append_loop. cbn. rewrite map_map.
  apply map_ext. intros i. now destruct (shapely.interpolate g _).
Qed.

Lemma samples_length (g : shapely.LineString) (step : R) :
  List.length (samples g step) = Z.to_nat (ceilZ (shapely.length g / step)).
Proof.
  unfold samples. rewrite length_map, length_seq.
  now replace (shapely.length g - 0) with (shapely.length g) by ring.
Qed.

Lemma samples_nth (g : shapely.LineString) (step : R) (i : nat) :
  (i < List.length (samples g step))%nat ->
  nth_error (samples g step) i = Some (shapely.interpolate g (INR i * step)).
Proof.
  unfold samples. rewrite length_map, length_seq. intros Hi.
  rewrite nth_error_map, nth_error_seq.
  apply Nat.ltb_lt in Hi. rewrite Hi. cbn.
  do 2 f_equal. ring.
Qed.


Lemma samples_cover (g : shapely.LineString) (step : R) :
  0 < step -> shapely.length g <= INR (List.length (samples g step)) * step.
Proof.
  intros Hstep. rewrite samples_length.
  pose proof (length_nonneg g) as Hlen.
  assert (Hq : 0 <= shapely.length g / step).
  { apply Rmult_le_pos; [exact Hlen|]. left. now apply Rinv_0_lt_compat. }
  pose proof (ceilZ_nonneg _ Hq) as Hpos.
  pose proof (ceilZ_bounds (shapely.length g / step)) as [_ Hhi].
  rewrite INR_IZR_INZ, Z2Nat.id by exact Hpos.
  apply Rmult_le_compat_r with (r := step) in Hhi; [|lra].
  unfold Rdiv in Hhi. rewrite Rmult_assoc, Rinv_l, Rmult_1_r in Hhi by lra.
  exact Hhi.
Qed.

Lemma samples_count (g : shapely.LineString) (step : R) :
  0 < step ->
  Z.of_nat (List.length (samples g step)) = ceilZ (shapely.length g / step).
Proof.
  intros Hstep. rewrite samples_length.
  pose proof (length_nonneg g) as Hlen.
  apply Z2Nat.id, ceilZ_nonneg.
  apply Rmult_le_pos; [exact Hlen|]. left. now apply Rinv_0_lt_compat.
Qed.

(** *** A straight road from the origin along the first axis *)

Lemma straight_length (b : R) : 0 <= b -> shapely.length (straight b) = b.
Proof.
  intros Hb. unfold shapely.length, straight. simpl.
  rewrite distance_horizontal by exact Hb. ring.
Qed.

Lemma straight_interpolate (b d : R) :
  0 <= d -> d < b -> shapely.interpolate (straight b) d = (d, 0).
Proof.
  intros Hd Hdb. unfold shapely.interpolate.
  destruct (Rlt_dec d 0) as [?|_]; [lra|].
  destruct (Rle_dec d 0) as [Hd0|Hd0].
  - simpl. f_equal. lra.
  - unfold straight. simpl.
    rewrite distance_horizontal by lra.
    destruct (Rlt_dec d (b - 0)) as [_|?]; [|lra].
    unfold shapely.along. simpl. f_equal; field; lra.
Qed.

Lemma straight_samples (b step : R) (n : nat) :
  0 <= b -> 0 < step -> INR n - 1 < b / step <= INR n ->
  samples (straight b) step = map (fun i => (INR i * step, 0)) (seq 0 n).
Proof.
  intros Hb Hstep Hn.
  assert (Hceil : ceilZ (shapely.length (straight b) / step) = Z.of_nat n).
  { apply ceilZ_unique. rewrite straight_length, <- INR_IZR_INZ by exact Hb.
    exact Hn. }
  unfold samples.
  replace (shapely.length (straight b) - 0)
    with (shapely.length (straight b)) by ring.
  rewrite Hceil, Nat2Z.id.
  apply map_ext_in. intros i Hi. apply in_seq in Hi.
  replace (0 + INR i * step) with (INR i * step) by ring.
  apply straight_interpolate.
  - apply Rmult_le_pos; [apply pos_INR|lra].
  - assert (Hle : INR i <= INR n - 1).
    { replace (INR n - 1) with (INR (n - 1)).
      - apply le_INR. lia.
      - rewrite minus_INR by lia. simpl. ring. }
    assert (Hlt : INR i < b / step) by lra.
    apply Rmult_lt_compat_r with (r := step) in Hlt; [|exact Hstep].
    unfold Rdiv in Hlt. rewrite Rmult_assoc, Rinv_l, Rmult_1_r in Hlt by lra.
    exact Hlt.
Qed.

(** *** The loops of [gather_road_points] *)

Lemma py_index_nth {A} (l : list A) (i : nat) (d : A) :
  (i < List.length l)%nat -> py_index l (Z.of_nat i) = Ok (nth i l d).
Proof.
  intros Hi. unfold py_index.
  destruct (Z.ltb_spec (Z.of_nat i) 0) as [?|_]; [lia|].
  destruct (Z.ltb_spec (Z.of_nat i) 0) as [?|_]; [lia|].
  rewrite Nat2Z.id.
  rewrite (nth_error_nth' l d Hi). reflexivity.
Qed.

Lemma map_nth_seq {A B} (f : A -> B) (d : A) (l : list A) :
  map (fun x => f (nth x l d)) (seq 0 (List.length l)) = map f l.
Proof.
  induction l as [|a l IH]; [reflexivity|].
  cbn [List.length seq map nth]. f_equal.
  rewrite <- seq_shift, map_map. exact IH.
Qed.

Lemma for_each_app {S A} (body : S -> A -> result S) (xs ys : list A) :
  forall s : S,
    for_each (xs ++ ys) body s
    = rbind (for_each xs body s) (for_each ys body).
Proof.
  induction xs as [|x xs IH]; intros s; cbn.
  - reflexivity.
  - destruct (body s x) as [s'|e]; cbn; [apply IH|reflexivity].
Qed.

Lemma bearing_body_ok (pts : list point) (bs : list R) (x : nat) :
  (1 < List.length pts)%nat -> (x < List.length pts)%nat ->
  bearing_body pts bs x = Ok (bs ++ [bearing_of pts x]).
Proof.
  intros Hlen Hx. unfold bearing_body, bearing_of.
  destruct (bool_decide (x = 0%nat)) eqn:Hx0.
  - apply bool_decide_eq_true in Hx0. subst x.
    change (Z.of_nat 0 + 1)%Z with (Z.of_nat 1).
    rewrite (py_index_nth pts 1 (0, 0)) by lia.
    rewrite (py_index_nth pts 0 (0, 0)) by lia.
    reflexivity.
  - apply bool_decide_eq_false in Hx0.
    replace (Z.of_nat x - 1)%Z with (Z.of_nat (x - 1)) by lia.
    rewrite (py_index_nth pts x (0, 0)) by lia.
    rewrite (py_index_nth pts (x - 1) (0, 0)) by lia.
    reflexivity.
Qed.

Lemma bearing_loop (pts : list point) (xs : list nat) :
  (1 < List.length pts)%nat ->
  (forall x, In x xs -> (x < List.length pts)%nat) ->
  forall bs : list R,
    for_each xs (bearing_body pts) bs = Ok (bs ++ map (bearing_of pts) xs).
Proof.
  intros Hlen. induction xs as [|x xs IH]; intros Hxs bs; cbn.
  - now rewrite app_nil_r.
  - rewrite bearing_body_ok by (try assumption; apply Hxs; now left).
    cbn. rewrite IH by (intros y Hy; apply Hxs; now right).
    now rewrite <- app_assoc.
Qed.

Lemma densify_row_selected (rrow : road) :
  selected rrow = true ->
  exists g, geometry rrow = Some g
            /\ densify_row rrow = Ok (samples g 0.0002).
Proof.
  unfold selected, densify_row. intros Hsel.
  apply andb_prop in Hsel as [Hgeo _].
  destruct (geometry rrow) as [g|].
  - exists g. split; [reflexivity|]. apply densify_geometry_samples. lra.
  - discriminate.
Qed.

Lemma road_body_represents (acc : columns) (rows : list road_point)
    (rrow : road) :
  selected rrow = true -> represents acc rows ->
  exists acc', road_body acc rrow = Ok acc'
               /\ represents acc' (rows ++ road_rows rrow).
Proof.
  intros Hsel Hrep. unfold road_body, road_rows. rewrite Hsel.
  destruct (densify_row_selected rrow Hsel) as (g & Hg & Hdens).
  rewrite Hdens, Hg.
  generalize (samples g 0.0002). intros pts. cbn -[Nat.ltb].
  destruct (1 <? List.length pts)%nat eqn:Hlt.
  - apply Nat.ltb_lt in Hlt.
    rewrite bearing_loop;
      [|exact Hlt|intros x Hx; apply in_seq in Hx as [_ Hx]; exact Hx].
    cbn -[Nat.ltb]. eexists. split; [reflexivity|].
    destruct Hrep as (Hn & Hx & Hy & Hl & Hb).
    unfold represents. cbn -[Nat.ltb]. rewrite !map_app, !map_map.
    cbn -[Nat.ltb].
    rewrite Hn, Hx, Hy, Hl, Hb.
    rewrite (map_nth_seq (fun _ => name rrow) (0, 0)).
    rewrite (map_nth_seq (fun _ => length rrow) (0, 0)).
    rewrite (map_nth_seq fst (0, 0)), (map_nth_seq snd (0, 0)).
    repeat (split; [reflexivity|]). reflexivity.
  - exists acc. split; [reflexivity|]. now rewrite app_nil_r.
Qed.

Lemma road_rows_unselected (rrow : road) :
  selected rrow = false -> road_rows rrow = [].
Proof. unfold road_rows. now intros ->. Qed.

Lemma road_loop_represents (gdf : list road) :
  forall (acc : columns) (rows : list road_point),
    represents acc rows ->
    exists acc', for_each (List.filter selected gdf) road_body acc = Ok acc'
                 /\ represents acc' (rows ++ flat_map road_rows gdf).
Proof.
  induction gdf as [|rrow gdf IH]; intros acc rows Hrep.
  - exists acc. split; [reflexivity|]. cbn. now rewrite app_nil_r.
  - cbn [List.filter flat_map]. destruct (selected rrow) eqn:Hsel.
    + destruct (road_body_represents acc rows rrow Hsel Hrep)
        as (acc1 & Hbody & Hrep1).
      destruct (IH acc1 _ Hrep1) as (acc2 & Hloop & Hrep2).
      exists acc2. split.
      * cbn. rewrite Hbody. exact Hloop.
      * now rewrite app_assoc.
    + rewrite road_rows_unselected by exact Hsel. cbn.
      apply IH. exact Hrep.
Qed.

Lemma zip_columns_rows (rows : list road_point) :
  zip_columns (map road_name rows) (map lon rows) (map lat rows)
    (map road_length rows) (map bearing rows) = Ok rows.
Proof.
  induction rows as [|[n x y l b] rows IH]; cbn.
  - reflexivity.
  - rewrite IH. reflexivity.
Qed.

Lemma from_dict_represents (rows : list road_point) (c : columns) :
  represents c rows -> from_dict c = Ok rows.
Proof.
  intros (Hn & Hx & Hy & Hl & Hb). unfold from_dict.
  rewrite Hn, Hx, Hy, Hl, Hb. apply zip_columns_rows.
Qed.

(** [gather_road_points] never raises, and its table is the concatenation of
    the rows of the roads. *)
Lemma gather_road_points_rows (gdf : list road) :
  gather_road_points gdf = Ok (flat_map road_rows gdf).
Proof.
  unfold gather_road_points.
  destruct (road_loop_represents gdf no_columns [])
    as (acc & Hloop & Hrep).
  { repeat split; reflexivity. }
  rewrite Hloop. cbn. now apply from_dict_represents.
Qed.

Lemma gather_road_points_middle (before after : list road) (rrow : road) :
  gather_road_points (before ++ rrow :: after)
  = Ok (flat_map road_rows before ++ road_rows rrow ++ flat_map road_rows after).
Proof.
  rewrite gather_road_points_rows, flat_map_app. reflexivity.
Qed.

Lemma gather_road_points_without (before after : list road) (rrow : road) :
  road_rows rrow = [] ->
  gather_road_points (before ++ rrow :: after)
  = gather_road_points (before ++ after)
  /\ returns (gather_road_points (before ++ rrow :: after)).
Proof.
  intros Hnone. rewrite gather_road_points_middle, Hnone.
  rewrite gather_road_points_rows, flat_map_app. split; [reflexivity|].
  eexists. reflexivity.
Qed.

Lemma densified_samples (g : shapely.LineString) (pts : list point) :
  densify_geometry g 0.0002 None = Ok pts -> pts = samples g 0.0002.
Proof.
  rewrite densify_geometry_samples by lra. congruence.
Qed.

Lemma samples_zero_length (g : shapely.LineString) (step : R) :
  shapely.length g = 0 -> samples g step = [].
Proof.
  intros Hlen. unfold samples. rewrite Hlen.
  replace ((0 - 0) / step) with 0 by (unfold Rdiv; ring).
  rewrite (ceilZ_unique 0 0) by lra. reflexivity.
Qed.

(** *** Claims on [gather_road_points] *)

(** C6: a road whose geometry is null or whose highway type is "service"
    leaves no row in the table of [gather_road_points] (the table is the one
    obtained without that road), and the call returns. *)
Theorem excluded_road_contributes_nothing (before after : list road)
    (rrow : road) :
  geometry rrow = None \/ highway rrow = "service"%string ->
  gather_road_points (before ++ rrow :: after)
  = gather_road_points (before ++ after)
  /\ returns (gather_road_points (before ++ rrow :: after)).
Proof.
  intros Hexcl. apply gather_road_points_without, road_rows_unselected.
  unfold selected. destruct Hexcl as [-> | ->].
  - reflexivity.
  - apply andb_false_r.
Qed.

Lemma excluded_road_contributes_nothing_witness :
  gather_road_points ([] ++ mkRoad None "residential" "Elm Street" 120 :: [])
  = gather_road_points ([] ++ [])
  /\ returns
       (gather_road_points
          ([] ++ mkRoad None "residential" "Elm Street" 120 :: [])).
Proof.
  apply (excluded_road_contributes_nothing [] []
           (mkRoad None "residential" "Elm Street" 120)).
  left. reflexivity.
Defined.

(** C7: a road whose densification has fewer than two points leaves no row
    in the table of [gather_road_points], and the call returns; a road of
    length zero is such a road, its densification is empty. *)
Theorem short_road_contributes_nothing (before after : list road)
    (rrow : road) (g : shapely.LineString) (pts : list point) :
  geometry rrow = Some g ->
  densify_geometry g 0.0002 None = Ok pts ->
  (List.length pts < 2)%nat ->
  (shapely.length g = 0 -> pts = [])
  /\ gather_road_points (before ++ rrow :: after)
     = gather_road_points (before ++ after)
  /\ returns (gather_road_points (before ++ rrow :: after)).
Proof.
  intros Hg Hdens Hshort. apply densified_samples in Hdens. subst pts.
  split; [apply samples_zero_length|].
  apply gather_road_points_without. unfold road_rows.
  destruct (selected rrow); [|reflexivity].
  rewrite Hg. cbn -[Nat.ltb].
  destruct (Nat.ltb_spec 1 (List.length (samples g 0.0002))) as [?|_];
    [lia|reflexivity].
Qed.

Lemma short_road_contributes_nothing_witness :
  (shapely.length (straight 0) = 0 -> @nil point = [])
  /\ gather_road_points
       ([] ++ mkRoad (Some (straight 0)) "residential" "Elm Street" 0 :: [])
     = gather_road_points ([] ++ [])
  /\ returns
       (gather_road_points
          ([] ++ mkRoad (Some (straight 0)) "residential" "Elm Street" 0 :: [])).
Proof.
  apply (short_road_contributes_nothing [] []
           (mkRoad (Some (straight 0)) "residential" "Elm Street" 0)
           (straight 0) []).
  - reflexivity.
  - rewrite densify_geometry_samples by lra.
    rewrite samples_zero_length by (apply straight_length; lra).
    reflexivity.
  - simpl. lia.
Defined.

(** *** Bearings along a meridian of [get_bearing] *)

Lemma radians_0 : ox.radians 0 = 0.
Proof. unfold ox.radians. field. Qed.

Lemma degrees_PI : ox.degrees PI = 180.
Proof. unfold ox.degrees. field. apply PI_neq0. Qed.

Lemma degrees_0 : ox.degrees 0 = 0.
Proof. unfold ox.degrees. field. apply PI_neq0. Qed.

Lemma atan2_0_neg (y : R) : y < 0 -> ox.atan2 0 y = PI.
Proof.
  intros Hy. unfold ox.atan2.
  destruct (Rlt_dec 0 y) as [?|_]; [lra|].
  destruct (Rlt_dec y 0) as [_|?]; [|lra].
  destruct (Rle_dec 0 0) as [_|?]; [|lra].
  unfold Rdiv. rewrite Rmult_0_l, atan_0. ring.
Qed.

Lemma atan2_0_pos (y : R) : 0 < y -> ox.atan2 0 y = 0.
Proof.
  intros Hy. unfold ox.atan2.
  destruct (Rlt_dec 0 y) as [_|?]; [|lra].
  unfold Rdiv. rewrite Rmult_0_l. apply atan_0.
Qed.

Lemma fmod_540 : ox.fmod (180 + 360) 360 = 180.
Proof.
  unfold ox.fmod. rewrite (floorZ_unique ((180 + 360) / 360) 1) by lra. lra.
Qed.

Lemma fmod_360 : ox.fmod (0 + 360) 360 = 0.
Proof.
  unfold ox.fmod. rewrite (floorZ_unique ((0 + 360) / 360) 1) by lra. lra.
Qed.

Lemma meridian_components (a b l : R) :
  sin (ox.radians (l - l)) * cos (ox.radians b) = 0
  /\ cos (ox.radians a) * sin (ox.radians b)
     - sin (ox.radians a) * cos (ox.radians b) * cos (ox.radians (l - l))
     = sin (ox.radians (b - a)).
Proof.
  replace (l - l) with 0 by ring. rewrite radians_0, sin_0, cos_0.
  split; [ring|].
  replace (ox.radians (b - a)) with (ox.radians b - ox.radians a)
    by (unfold ox.radians; field).
  rewrite sin_minus. ring.
Qed.

(** From an origin to a destination with the same second coordinate and a
    smaller first one the bearing is 180, to one with a larger first
    coordinate it is 0. *)
Lemma get_bearing_decreasing (a b l : R) :
  0 < a - b < 180 -> ox.get_bearing (a, l) (b, l) = 180.
Proof.
  intros Hab. unfold ox.get_bearing. cbn [fst snd].
  destruct (meridian_components a b l) as [-> ->].
  assert (Hsin : sin (ox.radians (b - a)) < 0).
  { replace (ox.radians (b - a)) with (- ox.radians (a - b))
      by (unfold ox.radians; field).
    rewrite sin_neg.
    assert (0 < sin (ox.radians (a - b))); [|lra].
    pose proof PI_RGT_0.
    apply sin_gt_0; unfold ox.radians; nra. }
  rewrite atan2_0_neg by exact Hsin.
  rewrite degrees_PI. apply fmod_540.
Qed.

Lemma get_bearing_increasing (a b l : R) :
  0 < b - a < 180 -> ox.get_bearing (a, l) (b, l) = 0.
Proof.
  intros Hab. unfold ox.get_bearing. cbn [fst snd].
  destruct (meridian_components a b l) as [-> ->].
  assert (Hsin : 0 < sin (ox.radians (b - a))).
  { pose proof PI_RGT_0. apply sin_gt_0; unfold ox.radians; nra. }
  rewrite atan2_0_pos by exact Hsin.
  rewrite degrees_0. apply fmod_360.
Qed.

(** *** Bearings of a retained road *)

Lemma road_rows_retained (rrow : road) (g : shapely.LineString) :
  geometry rrow = Some g -> highway rrow <> "service"%string ->
  (1 < List.length (samples g 0.0002))%nat ->
  road_rows rrow
  = map (fun x =>
           mkRoadPoint (name rrow)
             (fst (nth x (samples g 0.0002) (0, 0)))
             (snd (nth x (samples g 0.0002) (0, 0)))
             (length rrow) (bearing_of (samples g 0.0002) x))
        (seq 0 (List.length (samples g 0.0002))).
Proof.
  intros Hg Hhw Hlen. unfold road_rows, selected. rewrite Hg.
  rewrite (bool_decide_eq_false_2 (highway rrow = "service"%string)) by exact Hhw.
  cbn -[Nat.ltb samples].
  apply Nat.ltb_lt in Hlen. rewrite Hlen. reflexivity.
Qed.

Lemma road_rows_nth (rrow : road) (pts : list point) (i : nat) (row : road_point) :
  nth_error
    (map (fun x =>
            mkRoadPoint (name rrow) (fst (nth x pts (0, 0)))
              (snd (nth x pts (0, 0))) (length rrow) (bearing_of pts x))
         (seq 0 (List.length pts))) i = Some row ->
  (i < List.length pts)%nat
  /\ row = mkRoadPoint (name rrow) (fst (nth i pts (0, 0)))
             (snd (nth i pts (0, 0))) (length rrow) (bearing_of pts i).
Proof.
  rewrite nth_error_map, nth_error_seq.
  destruct (Nat.ltb_spec i (List.length pts)) as [Hi|Hi]; cbn; [|discriminate].
  intros [= <-]. split; [exact Hi|reflexivity].
Qed.

(** What the loop stores: a retained road with densified points [p0 .. pn],
    [n >= 1], contributes one row per point, in order, at that point; the
    bearing of the row of [pi], [i >= 1], is the value of
    [get_bearing(pi, p(i-1))], and the bearing of the row of [p0] is the
    value of [get_bearing(p1, p0)]. The points are [(lon, lat)] tuples, which
    [get_bearing] reads as [(lat, lng)]. *)
Lemma retained_road_bearings (before after : list road) (rrow : road)
    (g : shapely.LineString) (pts : list point) :
  geometry rrow = Some g ->
  highway rrow <> "service"%string ->
  densify_geometry g 0.0002 None = Ok pts ->
  (1 < List.length pts)%nat ->
  exists out_before rows out_after : list road_point,
    gather_road_points before = Ok out_before
    /\ gather_road_points after = Ok out_after
    /\ gather_road_points (before ++ rrow :: after)
       = Ok (out_before ++ rows ++ out_after)
    /\ List.length rows = List.length pts
    /\ (forall (i : nat) (p : point) (row : road_point),
          nth_error pts i = Some p -> nth_error rows i = Some row ->
          lon row = fst p /\ lat row = snd p)
    /\ (forall (i : nat) (p q : point) (row : road_point),
          nth_error pts i = Some p -> nth_error pts (S i) = Some q ->
          nth_error rows (S i) = Some row ->
          bearing row = ox.get_bearing q p)
    /\ (forall (p0 p1 : point) (row0 : road_point),
          nth_error pts 0 = Some p0 -> nth_error pts 1 = Some p1 ->
          nth_error rows 0 = Some row0 ->
          bearing row0 = ox.get_bearing p1 p0).
Proof.
  intros Hg Hhw Hdens Hlen. apply densified_samples in Hdens. subst pts.
  exists (flat_map road_rows before), (road_rows rrow),
    (flat_map road_rows after).
  split; [apply gather_road_points_rows|].
  split; [apply gather_road_points_rows|].
  split; [apply gather_road_points_middle|].
  rewrite (road_rows_retained rrow g Hg Hhw Hlen).
  generalize dependent (samples g 0.0002). intros pts Hlen.
  split; [now rewrite length_map, length_seq|].
  split; [|split].
  - intros i p row Hp Hrow.
    apply road_rows_nth in Hrow as [Hi ->]. cbn.
    rewrite (nth_error_nth pts i (0, 0) Hp). split; reflexivity.
  - intros i p q row Hp Hq Hrow.
    apply road_rows_nth in Hrow as [Hi ->]. cbn. unfold bearing_of.
    rewrite bool_decide_eq_false_2 by lia.
    replace (S i - 1)%nat with i by lia.
    rewrite (nth_error_nth pts (S i) (0, 0) Hq).
    rewrite (nth_error_nth pts i (0, 0) Hp). reflexivity.
  - intros p0 p1 row0 Hp0 Hp1 Hrow.
    apply road_rows_nth in Hrow as [Hi ->]. cbn. unfold bearing_of.
    rewrite bool_decide_eq_true_2 by reflexivity.
    rewrite (nth_error_nth pts 1 (0, 0) Hp1).
    rewrite (nth_error_nth pts 0 (0, 0) Hp0). reflexivity.
Qed.

Lemma elm_street_samples :
  samples (straight 0.0005) 0.0002 = [(0, 0); (0.0002, 0); (0.0004, 0)].
Proof.
  rewrite (straight_samples 0.0005 0.0002 3) by (simpl; lra).
  simpl. repeat f_equal; lra.
Qed.

Lemma retained_road_bearings_witness :
  exists out_before rows out_after : list road_point,
    gather_road_points [] = Ok out_before
    /\ gather_road_points [] = Ok out_after
    /\ gather_road_points ([] ++ elm_street :: [])
       = Ok (out_before ++ rows ++ out_after)
    /\ List.length rows = List.length [(0, 0); (0.0002, 0); (0.0004, 0)]
    /\ (forall (i : nat) (p : point) (row : road_point),
          nth_error [(0, 0); (0.0002, 0); (0.0004, 0)] i = Some p ->
          nth_error rows i = Some row ->
          lon row = fst p /\ lat row = snd p)
    /\ (forall (i : nat) (p q : point) (row : road_point),
          nth_error [(0, 0); (0.0002, 0); (0.0004, 0)] i = Some p ->
          nth_error [(0, 0); (0.0002, 0); (0.0004, 0)] (S i) = Some q ->
          nth_error rows (S i) = Some row ->
          bearing row = ox.get_bearing q p)
    /\ (forall (p0 p1 : point) (row0 : road_point),
          nth_error [(0, 0); (0.0002, 0); (0.0004, 0)] 0 = Some p0 ->
          nth_error [(0, 0); (0.0002, 0); (0.0004, 0)] 1 = Some p1 ->
          nth_error rows 0 = Some row0 ->
          bearing row0 = ox.get_bearing p1 p0).
Proof.
  apply (retained_road_bearings [] [] elm_street (straight 0.0005)
           [(0, 0); (0.0002, 0); (0.0004, 0)]).
  - reflexivity.
  - discriminate.
  - rewrite densify_geometry_samples by lra.
    now rewrite elm_street_samples.
  - simpl. lia.
Defined.

(** *** Azimuths along the equator *)

Lemma fmod_450 : ox.fmod (90 + 360) 360 = 90.
Proof.
  unfold ox.fmod. rewrite (floorZ_unique ((90 + 360) / 360) 1) by lra. lra.
Qed.

Lemma fmod_270 : ox.fmod (- 90 + 360) 360 = 270.
Proof.
  unfold ox.fmod. rewrite (floorZ_unique ((- 90 + 360) / 360) 0) by lra. lra.
Qed.

Lemma equator_components (a b : R) :
  sin (ox.radians (b - a)) * cos (ox.radians 0) = sin (ox.radians (b - a))
  /\ cos (ox.radians 0) * sin (ox.radians 0)
     - sin (ox.radians 0) * cos (ox.radians 0) * cos (ox.radians (b - a))
     = 0.
Proof. rewrite radians_0, sin_0, cos_0. split; ring. Qed.

(** Along the equator the azimuth to a point further east is 90, to one
    further west 270. *)
Lemma azimuth_east (a b : R) :
  0 < b - a < 180 -> SamplerNotions.azimuth (a, 0) (b, 0) = 90.
Proof.
  intros Hab. unfold SamplerNotions.azimuth, ox.get_bearing. cbn [fst snd].
  destruct (equator_components a b) as [-> ->].
  assert (Hsin : 0 < sin (ox.radians (b - a))).
  { pose proof PI_RGT_0. apply sin_gt_0; unfold ox.radians; nra. }
  unfold ox.atan2.
  destruct (Rlt_dec 0 0) as [?|_]; [lra|].
  destruct (Rlt_dec 0 (sin (ox.radians (b - a)))) as [_|?]; [|lra].
  replace (ox.degrees (PI / 2)) with 90
    by (unfold ox.degrees; field; apply PI_neq0).
  apply fmod_450.
Qed.

Lemma azimuth_west (a b : R) :
  0 < a - b < 180 -> SamplerNotions.azimuth (a, 0) (b, 0) = 270.
Proof.
  intros Hab. unfold SamplerNotions.azimuth, ox.get_bearing. cbn [fst snd].
  destruct (equator_components a b) as [-> ->].
  assert (Hsin : sin (ox.radians (b - a)) < 0).
  { replace (ox.radians (b - a)) with (- ox.radians (a - b))
      by (unfold ox.radians; field).
    rewrite sin_neg.
    assert (0 < sin (ox.radians (a - b))); [|lra].
    pose proof PI_RGT_0. apply sin_gt_0; unfold ox.radians; nra. }
  unfold ox.atan2.
  destruct (Rlt_dec 0 0) as [?|_]; [lra|].
  destruct (Rlt_dec 0 (sin (ox.radians (b - a)))) as [?|_]; [lra|].
  destruct (Rlt_dec (sin (ox.radians (b - a))) 0) as [_|?]; [|lra].
  replace (ox.degrees (- (PI / 2))) with (- 90)
    by (unfold ox.degrees; field; apply PI_neq0).
  apply fmod_270.
Qed.

(** C2, the code at the failing input: [elm_street] runs east along the
    equator, from (lon 0, lat 0) to (lon 0.0005, lat 0). Every row of its
    three points carries the bearing 180 (south): the points go to
    [get_bearing] as [(lon, lat)] tuples and are read as [(lat, lng)], and
    from the second point on the current point is the origin and the
    previous one the destination. The azimuth from each point to the next
    one is 90 (east), and from the second point back to the first one
    270 (west). *)
Theorem elm_street_bearings :
  gather_road_points [elm_street]
  = Ok [mkRoadPoint "Elm Street" 0 0 55 180;
        mkRoadPoint "Elm Street" 0.0002 0 55 180;
        mkRoadPoint "Elm Street" 0.0004 0 55 180]
  /\ SamplerNotions.azimuth (0, 0) (0.0002, 0) = 90
  /\ SamplerNotions.azimuth (0.0002, 0) (0.0004, 0) = 90
  /\ SamplerNotions.azimuth (0.0002, 0) (0, 0) = 270.
Proof.
  split; [|split; [|split]].
  - rewrite gather_road_points_rows. cbn [flat_map]. rewrite app_nil_r.
    rewrite (road_rows_retained elm_street (straight 0.0005));
      [|reflexivity|discriminate|rewrite elm_street_samples; simpl; lia].
    rewrite elm_street_samples. cbn [List.length seq map nth fst snd].
    unfold bearing_of, elm_street.
    cbn [bool_decide decide_rel Nat.eq_dec nth Nat.sub name length].
    f_equal.
    rewrite (get_bearing_decreasing 0.0002 0 0) by lra.
    rewrite (get_bearing_decreasing 0.0004 0.0002 0) by lra.
    reflexivity.
  - apply azimuth_east. lra.
  - apply azimuth_east. lra.
  - apply azimuth_west. lra.
Qed.

End SamplerFacts.

(** ** [densify_geometry] in double precision *)

Module Sampler64Facts.

Import PrimFloat FloatOps SpecFloat FloatAxioms.
Import Sampler64.

(** *** Operations with zero *)










(** *** [ceil] and [floor] *)


(** *** The values of [np.arange] from zero *)





(** *** Claims on [densify_geometry] *)




(** The count follows the rounded quotient: a line of length
    0.0006000000000000001 sampled every 0.0002 yields three points, as the
    quotient of the two floats, which is above 3, is rounded to 3. *)
Example densify_geometry_rounded_quotient :
  densify_geometry 1000 (segment 0.0006000000000000001) 0.0002 None
  = Ok [(0, 0); (0.0002, 0); (0.0004, 0)]%float
  /\ (0.0006000000000000001 / 0.0002 = 3)%float
  /\ (3 < value 0.0006000000000000001 / value 0.0002)%Q.
Proof. repeat split; reflexivity. Qed.




(** C10: with a [crs] the call never returns: it raises what [np.arange]
    raises (a [ZeroDivisionError] for a zero step), and when [np.arange]
    returns, the georeferencing branch reads [new_line], which no statement
    has bound. Without a [crs] the call returns the coordinate list whenever
    [np.arange] returns. *)
Theorem densify_geometry_crs (capacity : Z) (g : shapely.LineString)
    (step : float) :
  (forall c : string,
     densify_geometry capacity g step (Some c)
     = Raise match np.arange capacity 0 (shapely.length g) step with
             | Ok _ => NameError "new_line"
             | Raise e => e
             end)
  /\ densify_geometry capacity g step None
     = (ds ← np.arange capacity 0 (shapely.length g) step;
        Ok (map (shapely.interpolate g) ds))
  /\ ((step =? 0)%float = true ->
      np.arange capacity 0 (shapely.length g) step = Raise ZeroDivisionError).
Proof.
  split; [|split].
  - intros c. unfold densify_geometry.
    destruct (np.arange capacity 0 (shapely.length g) step); reflexivity.
  - unfold densify_geometry.
    destruct (np.arange capacity 0 (shapely.length g) step) as [ds|e];
      [|reflexivity].
    cbn. f_equal. rewrite SamplerFacts.append_loop. cbn.
    apply map_ext. intros d. now destruct (shapely.interpolate g d).
  - intros Hstep. unfold np.arange. now rewrite Hstep.
Qed.

(** The two branches on the line from (0, 0) to (5, 0). *)
Example densify_geometry_crs_of_a_segment :
  densify_geometry 1000 (segment 5) 2 (Some "epsg:4326"%string)
  = Raise (NameError "new_line")
  /\ densify_geometry 1000 (segment 5) 0 (Some "epsg:4326"%string)
     = Raise ZeroDivisionError
  /\ densify_geometry 1000 (segment 5) 2 None
     = Ok [(0, 0); (2, 0); (4, 0)]%float.
Proof. repeat split; reflexivity. Qed.

End Sampler64Facts.

(** ** The imagery fetcher *)

Module FetcherFacts.

Import Fetcher.

Lemma replace_comma_app (s t : string) :
  replace_comma (s +:+ t) = replace_comma s +:+ replace_comma t.
Proof.
  induction s as [|c s IH]; [reflexivity|].
  change (String c s +:+ t) with (String c (s +:+ t)).
  cbn [replace_comma]. rewrite IH. reflexivity.
Qed.

Lemma replace_comma_free (s : string) :
  comma_free s = true -> replace_comma s = s.
Proof.
  induction s as [|c s IH]; cbn; [reflexivity|].
  intros Hfree. apply andb_prop in Hfree as [Hc Hs].
  destruct (bool_decide (c = ","%char)); [discriminate|].
  now rewrite IH.
Qed.

Lemma replace_comma_location (a b : string) :
  comma_free a = true -> comma_free b = true ->
  replace_comma (a +:+ "," +:+ b) = a +:+ "_" +:+ b.
Proof.
  intros Ha Hb. rewrite !replace_comma_app.
  rewrite (replace_comma_free a Ha), (replace_comma_free b Hb). reflexivity.
Qed.

Lemma string_app_assoc (s t u : string) : (s +:+ t) +:+ u = s +:+ (t +:+ u).
Proof.
  induction s as [|c s IH]; [reflexivity|].
  change (String c ((s +:+ t) +:+ u) = String c (s +:+ (t +:+ u))).
  now rewrite IH.
Qed.

Lemma py_index_0 {A} (l : list A) :
  py_index l 0 = match l with
                 | a :: _ => Ok a
                 | [] => Raise IndexError
                 end.
Proof. destruct l; reflexivity. Qed.

Section Stage.

Context {float : Type}.
Variable format_float : float -> string.
Variable metadata_lookup : list params -> result response.
Variable http_get : string -> result string.

Local Abbreviation params_of := (Fetcher.params_of format_float).

(** The three outcomes of the lookup. *)
Lemma meta_of_exception (lat lon bearing : float) (creds : string) (e : exn) :
  metadata_lookup [params_of lat lon bearing creds] = Raise e ->
  gather_google_streetview_meta format_float metadata_lookup lat lon bearing creds
  = PdNA.
Proof.
  intros Hraise. unfold gather_google_streetview_meta, api_results.
  fold (params_of lat lon bearing creds). rewrite Hraise. reflexivity.
Qed.

Lemma meta_of_status (lat lon bearing : float) (creds : string)
    (links : list string) (m : metadata_entry) (ms : list metadata_entry) :
  metadata_lookup [params_of lat lon bearing creds]
  = Ok (mkResponse links (m :: ms)) ->
  gather_google_streetview_meta format_float metadata_lookup lat lon bearing creds
  = if bool_decide (status m = "OK"%string)
    then Results (mkResults [params_of lat lon bearing creds] links (m :: ms))
    else PyNone.
Proof.
  intros Hresp. unfold gather_google_streetview_meta, api_results.
  fold (params_of lat lon bearing creds). rewrite Hresp. cbn.
  rewrite py_index_0. cbn.
  destruct (bool_decide (status m = "OK"%string)); reflexivity.
Qed.

Lemma meta_Results_inv (lat lon bearing : float) (creds : string) (res : results) :
  gather_google_streetview_meta format_float metadata_lookup lat lon bearing creds
  = Results res ->
  r_params res = [params_of lat lon bearing creds]
  /\ exists m ms, r_metadata res = m :: ms /\ status m = "OK"%string.
Proof.
  unfold gather_google_streetview_meta, api_results.
  fold (params_of lat lon bearing creds).
  destruct (metadata_lookup [params_of lat lon bearing creds])
    as [[links meta]|e]; cbn; [|discriminate].
  rewrite py_index_0. destruct meta as [|m ms]; cbn; [discriminate|].
  destruct (bool_decide (status m = "OK"%string)) eqn:Hok; [|discriminate].
  intros [= <-]. cbn. split; [reflexivity|].
  exists m, ms. split; [reflexivity|]. now apply bool_decide_eq_true in Hok.
Qed.

(** [download_google_streetview_image] on a results object with status OK. *)
Lemma download_ok (res : results) (data_dir : string) (w : world)
    (m : metadata_entry) (ms : list metadata_entry)
    (url : string) (urls : list string) (p : params) (ps : list params) :
  r_metadata res = m :: ms -> status m = "OK"%string ->
  r_links res = url :: urls -> r_params res = p :: ps ->
  download_google_streetview_image http_get (Results res) data_dir w
  = let filepath := data_dir +:+ "/" +:+ image_filename p in
    if bool_decide (is_Some (files w !! filepath)) then (Ok (Some filepath), w)
    else match http_get url with
         | Ok img_data =>
             (Ok (Some filepath),
              mkWorld (<[filepath := img_data]> (files w)) (fetched w ++ [url]))
         | Raise e => (Raise e, mkWorld (files w) (fetched w ++ [url]))
         end.
Proof.
  intros Hmeta Hok Hlinks Hparams.
  unfold download_google_streetview_image; unfold_st.
  cbn. rewrite Hmeta, Hlinks, Hparams, !py_index_0.
  rewrite (bool_decide_eq_true_2 _ Hok). cbn.
  destruct (bool_decide (is_Some (files w !! (data_dir +:+ "/" +:+ image_filename p))));
    cbn; [reflexivity|].
  destruct (http_get url); reflexivity.
Qed.

(** *** Claims on the fetch stage *)

(** Where the lookup answers without success the row is skipped. *)
Lemma unsuccessful_lookup_skipped (creds data_dir : string) (r : row float)
    (w : world) (links : list string) (m : metadata_entry)
    (ms : list metadata_entry) :
  metadata_lookup [params_of (lat r) (lon r) (bearing r) creds]
  = Ok (mkResponse links (m :: ms)) ->
  status m <> "OK"%string ->
  street_images format_float metadata_lookup http_get creds data_dir [r] w
  = (Ok [(r, None)], w).
Proof.
  intros Hresp Hstatus. unfold street_images. cbn [take map].
  rewrite (meta_of_status _ _ _ _ _ _ _ Hresp).
  rewrite (bool_decide_eq_false_2 _ Hstatus). reflexivity.
Qed.

(** C3, the code at the failing input: when the lookup of a row raises, its
    meta cell is [pd.NA]; [pd.NA != None] holds, so the download is called on
    it, and the [AttributeError] of its first attribute access leaves the
    stage. *)
Theorem failed_lookup_raises_in_fetch (creds data_dir : string)
    (r : row float) (w : world) (e : exn) :
  metadata_lookup [params_of (lat r) (lon r) (bearing r) creds] = Raise e ->
  gather_google_streetview_meta format_float metadata_lookup
    (lat r) (lon r) (bearing r) creds = PdNA
  /\ image_cell http_get data_dir PdNA w
     = (Raise (AttributeError "metadata"), w)
  /\ street_images format_float metadata_lookup http_get creds data_dir [r] w
     = (Raise (AttributeError "metadata"), w).
Proof.
  intros Hraise. split; [now apply (meta_of_exception _ _ _ _ e)|].
  split; [reflexivity|].
  unfold street_images. cbn [take map].
  rewrite (meta_of_exception _ _ _ _ e Hraise). reflexivity.
Qed.

(** C4, as amended: for a successful lookup whose image can be fetched, the
    image is persisted under [<lat>_<lon>_<heading>.jpg] in the data
    directory, where the three parts are the latitude, longitude and bearing
    of the row as Python formats them, unrounded. *)
Theorem image_filename_unrounded (creds data_dir : string)
    (lat lon bearing : float) (res : results)
    (url : string) (urls : list string) (img : string) (w : world) :
  gather_google_streetview_meta format_float metadata_lookup lat lon bearing creds
  = Results res ->
  r_links res = url :: urls ->
  http_get url = Ok img ->
  comma_free (format_float lat) = true ->
  comma_free (format_float lon) = true ->
  let filepath :=
    data_dir +:+ "/" +:+ format_float lat +:+ "_" +:+ format_float lon +:+ "_"
    +:+ format_float bearing +:+ ".jpg" in
  exists w' : world,
    download_google_streetview_image http_get (Results res) data_dir w
    = (Ok (Some filepath), w')
    /\ is_Some (files w' !! filepath).
Proof.
  intros Hmeta Hlinks Hget Hlat Hlon filepath.
  apply meta_Results_inv in Hmeta as (Hparams & m & ms & Hms & Hok).
  rewrite (download_ok res data_dir w m ms url urls _ [] Hms Hok Hlinks Hparams).
  assert (Hpath : data_dir +:+ "/"
                  +:+ image_filename (params_of lat lon bearing creds)
                  = filepath).
  { unfold filepath, image_filename, params_of. cbn [location heading].
    rewrite (replace_comma_location _ _ Hlat Hlon).
    now rewrite !string_app_assoc. }
  cbn zeta. rewrite Hpath, Hget.
  destruct (bool_decide (is_Some (files w !! filepath))) eqn:Hpresent.
  - exists w. split; [reflexivity|]. now apply bool_decide_eq_true in Hpresent.
  - eexists. split; [reflexivity|]. cbn.
    rewrite lookup_insert_eq. now eexists.
Qed.

(** *** Running the stage again *)

Lemma keeps_refl (w : world) : keeps w w.
Proof. intros path Hpath. exact Hpath. Qed.

Lemma keeps_trans (w1 w2 w3 : world) : keeps w1 w2 -> keeps w2 w3 -> keeps w1 w3.
Proof. intros H12 H23 path Hpath. apply H23, H12, Hpath. Qed.

Lemma keeps_write (w : world) (path data : string) (log : list string) :
  keeps w (mkWorld (<[path := data]> (files w)) log).
Proof.
  intros path' Hpath'. cbn. apply lookup_insert_is_Some'. now right.
Qed.

(** A cell of the image column only adds files, and once its file is there
    it is computed without a request. *)
Lemma image_cell_steady (data_dir : string) (meta : meta_cell)
    (w w1 : world) (v : option string) :
  image_cell http_get data_dir meta w = (Ok v, w1) ->
  keeps w w1
  /\ forall w' : world, keeps w1 w' ->
       image_cell http_get data_dir meta w' = (Ok v, w').
Proof.
  destruct meta as [res| |]; cbn [image_cell ne_None].
  - destruct (r_metadata res) as [|m ms] eqn:Hms.
    { unfold download_google_streetview_image; unfold_st. cbn.
      rewrite Hms, py_index_0. discriminate. }
    destruct (bool_decide (status m = "OK"%string)) eqn:Hok.
    2:{ unfold download_google_streetview_image; unfold_st. cbn. rewrite Hms, py_index_0, Hok. cbn.
        intros [= <- <-]. split; [apply keeps_refl|reflexivity]. }
    apply bool_decide_eq_true in Hok.
    destruct (r_links res) as [|url urls] eqn:Hlinks.
    { unfold download_google_streetview_image; unfold_st. cbn.
      rewrite Hms, Hlinks, !py_index_0, (bool_decide_eq_true_2 _ Hok).
      discriminate. }
    destruct (r_params res) as [|p ps] eqn:Hparams.
    { unfold download_google_streetview_image; unfold_st. cbn.
      rewrite Hms, Hlinks, Hparams, !py_index_0, (bool_decide_eq_true_2 _ Hok).
      discriminate. }
    pose proof (download_ok res data_dir) as Hdl.
    specialize (fun w => Hdl w m ms url urls p ps Hms Hok Hlinks Hparams).
    cbn zeta in Hdl. rewrite (Hdl w).
    destruct (bool_decide
                (is_Some (files w !! (data_dir +:+ "/" +:+ image_filename p))))
      eqn:Hpresent.
    + intros [= <- <-]. split; [apply keeps_refl|].
      intros w' Hkeep. rewrite Hdl, bool_decide_eq_true_2; [reflexivity|].
      apply Hkeep. now apply bool_decide_eq_true in Hpresent.
    + destruct (http_get url) as [img|e]; [|discriminate].
      intros [= <- <-]. split; [apply keeps_write|].
      intros w' Hkeep. rewrite Hdl, bool_decide_eq_true_2; [reflexivity|].
      apply Hkeep. cbn. rewrite lookup_insert_eq. now eexists.
  - intros [= <- <-]. split; [apply keeps_refl|reflexivity].
  - discriminate.
Qed.

Lemma apply_rows_steady (data_dir : string) (metas : list meta_cell) :
  forall (w w1 : world) (images : list (option string)),
    apply_rows (image_cell http_get data_dir) metas w = (Ok images, w1) ->
    keeps w w1
    /\ forall w' : world, keeps w1 w' ->
         apply_rows (image_cell http_get data_dir) metas w' = (Ok images, w').
Proof.
  induction metas as [|meta metas IH]; intros w w1 images.
  - cbn. intros [= <- <-]. split; [apply keeps_refl|reflexivity].
  - cbn [apply_rows]. unfold_st.
    destruct (image_cell http_get data_dir meta w) as [[v|e] w2] eqn:Hcell;
      [|discriminate].
    destruct (apply_rows (image_cell http_get data_dir) metas w2)
      as [[vs|e] w3] eqn:Hrest; [|discriminate].
    intros [= <- <-].
    apply image_cell_steady in Hcell as [Hkeep2 Hcell].
    apply IH in Hrest as [Hkeep3 Hrest].
    split; [now apply keeps_trans with w2|].
    intros w' Hkeep.
    rewrite Hcell by (now apply keeps_trans with w3).
    rewrite Hrest by exact Hkeep. reflexivity.
Qed.

(** A run of the stage that follows a completed run on the same table
    returns the same image column and issues no request. *)
Lemma street_images_rerun (creds data_dir : string) (df : list (row float))
    (w w1 : world) (out : list (row float * option string)) :
  street_images format_float metadata_lookup http_get creds data_dir df w
  = (Ok out, w1) ->
  street_images format_float metadata_lookup http_get creds data_dir df w1
  = (Ok out, w1).
Proof.
  unfold street_images; unfold_st.
  destruct (apply_rows _ _ w) as [[images|e] w2] eqn:Happly; [|discriminate].
  intros [= <- <-].
  apply apply_rows_steady in Happly as [_ Happly].
  rewrite Happly by apply keeps_refl. reflexivity.
Qed.

(** C5: when the image file of a successful result is already in the data
    directory, [download_google_streetview_image] issues no request, leaves
    the files as they are and returns the path of that file; a call that
    follows a completed call returns the same path without a request; and a
    run of the stage that follows a completed run returns the same image
    column without a request. *)
Theorem existing_image_not_refetched (res : results) (data_dir : string)
    (w : world) (m : metadata_entry) (ms : list metadata_entry)
    (url : string) (urls : list string) (p : params) (ps : list params) :
  r_metadata res = m :: ms -> status m = "OK"%string ->
  r_links res = url :: urls -> r_params res = p :: ps ->
  is_Some (files w !! (data_dir +:+ "/" +:+ image_filename p)) ->
  download_google_streetview_image http_get (Results res) data_dir w
  = (Ok (Some (data_dir +:+ "/" +:+ image_filename p)), w)
  /\ (forall (w0 w1 : world) (v : option string),
       download_google_streetview_image http_get (Results res) data_dir w0
       = (Ok v, w1) ->
       v = Some (data_dir +:+ "/" +:+ image_filename p)
       /\ download_google_streetview_image http_get (Results res) data_dir w1
          = (Ok v, w1))
  /\ forall (creds : string) (df : list (row float)) (w0 w1 : world)
       (out : list (row float * option string)),
       street_images format_float metadata_lookup http_get creds data_dir df w0
       = (Ok out, w1) ->
       street_images format_float metadata_lookup http_get creds data_dir df w1
       = (Ok out, w1).
Proof.
  intros Hms Hok Hlinks Hparams Hfile.
  pose proof (download_ok res data_dir) as Hdl.
  specialize (fun w => Hdl w m ms url urls p ps Hms Hok Hlinks Hparams).
  cbn zeta in Hdl. split; [|split].
  - rewrite Hdl, (bool_decide_eq_true_2 _ Hfile). reflexivity.
  - intros w0 w1 v. rewrite (Hdl w0).
    destruct (bool_decide
                (is_Some (files w0 !! (data_dir +:+ "/" +:+ image_filename p))))
      eqn:Hpresent.
    + intros [= <- <-]. split; [reflexivity|].
      rewrite Hdl, Hpresent. reflexivity.
    + destruct (http_get url) as [img|e]; [|discriminate].
      intros [= <- <-]. split; [reflexivity|].
      rewrite Hdl. cbn [files].
      rewrite bool_decide_eq_true_2; [reflexivity|].
      rewrite lookup_insert_eq. now eexists.
  - intros creds df. apply street_images_rerun.
Qed.

End Stage.

(** *** The stage on a sample point *)

Lemma failed_lookup_raises_in_fetch_witness :
  gather_google_streetview_meta Decimal.format Providers.unreachable
    (lat Providers.monroe) (lon Providers.monroe) (bearing Providers.monroe)
    "KEY" = PdNA
  /\ image_cell Providers.image_server "data" PdNA Providers.no_files
     = (Raise (AttributeError "metadata"), Providers.no_files)
  /\ street_images Decimal.format Providers.unreachable Providers.image_server
       "KEY" "data" [Providers.monroe] Providers.no_files
     = (Raise (AttributeError "metadata"), Providers.no_files).
Proof.
  apply (failed_lookup_raises_in_fetch Decimal.format Providers.unreachable
           Providers.image_server "KEY" "data" Providers.monroe
           Providers.no_files ConnectionError).
  reflexivity.
Defined.

Lemma image_filename_unrounded_witness :
  exists w' : world,
    download_google_streetview_image Providers.image_server
      (Results Providers.monroe_results) "data" Providers.no_files
    = (Ok (Some "data/41.8799731_-87.6790694_0.037247.jpg"%string), w')
    /\ is_Some (files w' !! "data/41.8799731_-87.6790694_0.037247.jpg"%string).
Proof.
  apply (image_filename_unrounded Decimal.format Providers.available
           Providers.image_server "KEY" "data"
           (lat Providers.monroe) (lon Providers.monroe)
           (bearing Providers.monroe) Providers.monroe_results
           (Providers.link Providers.monroe_params) [] "JFIF"
           Providers.no_files).
  - reflexivity.
  - reflexivity.
  - reflexivity.
  - reflexivity.
  - reflexivity.
Defined.

(** C4 as stated fails: the point at latitude 41.8799731 and longitude
    -87.6790694 is stored under a name with all seven decimals, while a name
    built from the position rounded to six or fewer places is another one. *)
Lemma image_filename_not_rounded :
  fst (street_images Decimal.format Providers.available Providers.image_server
         "KEY" "data" [Providers.monroe] Providers.no_files)
  = Ok [(Providers.monroe,
         Some "data/41.8799731_-87.6790694_0.037247.jpg"%string)]
  /\ Decimal.rounded_filename 6 (lat Providers.monroe) (lon Providers.monroe)
       (bearing Providers.monroe)
     = "41.879973_-87.679069_0.037247.jpg"%string
  /\ Forall
       (fun n =>
          Decimal.rounded_filename n (lat Providers.monroe)
            (lon Providers.monroe) (bearing Providers.monroe)
          <> "41.8799731_-87.6790694_0.037247.jpg"%string)
       (seq 0 7).
Proof.
  split; [vm_compute; reflexivity|].
  split; [vm_compute; reflexivity|].
  repeat constructor; vm_compute; discriminate.
Qed.

Lemma existing_image_not_refetched_witness :
  download_google_streetview_image Providers.image_server
    (Results Providers.monroe_results) "data" Providers.stocked
  = (Ok (Some ("data" +:+ "/" +:+ image_filename Providers.monroe_params)),
     Providers.stocked)
  /\ (forall (w0 w1 : world) (v : option string),
       download_google_streetview_image Providers.image_server
         (Results Providers.monroe_results) "data" w0 = (Ok v, w1) ->
       v = Some ("data" +:+ "/" +:+ image_filename Providers.monroe_params)
       /\ download_google_streetview_image Providers.image_server
            (Results Providers.monroe_results) "data" w1 = (Ok v, w1))
  /\ forall (creds : string) (df : list (row Decimal.decimal))
       (w0 w1 : world) (out : list (row Decimal.decimal * option string)),
       street_images Decimal.format Providers.available Providers.image_server
         creds "data" df w0 = (Ok out, w1) ->
       street_images Decimal.format Providers.available Providers.image_server
         creds "data" df w1 = (Ok out, w1).
Proof.
  apply (existing_image_not_refetched Decimal.format Providers.available
           Providers.image_server
           Providers.monroe_results "data" Providers.stocked
           (mkMeta "OK") [] (Providers.link Providers.monroe_params) []
           Providers.monroe_params []).
  - reflexivity.
  - reflexivity.
  - reflexivity.
  - reflexivity.
  - exists "JFIF"%string. reflexivity.
Defined.

End FetcherFacts.

(** ** The signage classifier *)

Module PredictorFacts.

Import Predictor.

Section Stage.

Context {float : Type}.
Variable isnan : float -> bool.
Variable model : string -> result (list string * list float).

Local Abbreviation answers := (Predictor.answers model).

Lemma predict_row_without_image (x : image_row float)
    (calls : list (option string)) :
  google_streetview_image x = None ->
  predict_row model x calls = (Ok (mkPredicted x None), calls).
Proof. intros Himg. unfold predict_row. rewrite Himg. reflexivity. Qed.

Lemma predict_row_with_image (x : image_row float) (path : string)
    (calls : list (option string)) :
  answers -> google_streetview_image x = Some path ->
  exists label prob,
    predict_row model x calls
    = (Ok (mkPredicted x (Some (label, prob))), calls ++ [Some path]).
Proof.
  intros Hmodel Himg.
  destruct (Hmodel path) as (label & labels & prob & probs & Hpath).
  exists label, prob. unfold predict_row. rewrite Himg.
  rewrite bool_decide_eq_true_2 by discriminate.
  unfold gather_predictions, classifyImage; unfold_st.
  rewrite Himg, Hpath. reflexivity.
Qed.

Lemma apply_rows_predict (df : list (image_row float)) :
  answers ->
  forall calls : list (option string),
    exists applied : list (predicted_row float),
      apply_rows (predict_row model) df calls
      = (Ok applied, calls ++ with_image df)
      /\ Forall2 applied_to df applied.
Proof.
  intros Hmodel. induction df as [|x df IH]; intros calls.
  - exists []. split; [|constructor].
    cbn. unfold mret, st_ret. now rewrite app_nil_r.
  - destruct (google_streetview_image x) as [path|] eqn:Himg.
    + destruct (predict_row_with_image x path calls Hmodel Himg)
        as (label & prob & Hrow).
      destruct (IH (calls ++ [Some path])) as (applied & Happly & Hall).
      exists (mkPredicted x (Some (label, prob)) :: applied). split.
      * cbn [apply_rows]. unfold_st.
        rewrite Hrow, Happly. unfold with_image. cbn [map List.filter].
        rewrite Himg. rewrite bool_decide_eq_true_2 by discriminate.
        now rewrite <- app_assoc.
      * constructor; [|exact Hall].
        split; [reflexivity|]. split; [congruence|]. intros _. now eexists.
    + destruct (IH calls) as (applied & Happly & Hall).
      exists (mkPredicted x None :: applied). split.
      * cbn [apply_rows]. unfold_st.
        rewrite (predict_row_without_image x calls Himg), Happly.
        unfold with_image. cbn [map List.filter]. rewrite Himg.
        rewrite bool_decide_eq_false_2 by (intros Hne; now apply Hne).
        reflexivity.
      * constructor; [|exact Hall].
        split; [reflexivity|]. split; [reflexivity|]. intros Hne. congruence.
Qed.



Lemma apply_predictions_rows (df : list (image_row float)) :
  df <> [] -> apply_predictions model df = apply_rows (predict_row model) df.
Proof. now destruct df. Qed.





End Stage.


(** The stage on a table with one image present and one missing, with a
    model that sees a sign in every image. *)
Example classification_of_street_view_table :
  model_predict Providers.never_nan Providers.signage_model
    Providers.street_view_table []
  = (Ok [mkPredicted PredictorNotions.row_with_image
           (Some ("schoolsign"%string, Decimal.mkDecimal 100 0))],
     [Some "data/41.8799731_-87.6790694_0.037247.jpg"%string]).
Proof. reflexivity. Qed.

End PredictorFacts.

(** ** More on the sampler *)

Module SamplerExtras.

Import Sampler SamplerFacts.
Open Scope R_scope.

Lemma fmod_range (a : R) : 0 <= ox.fmod a 360 < 360.
Proof.
  unfold ox.fmod. pose proof (floorZ_bounds (a / 360)) as [Hlo Hhi].
  assert (Ha : a = 360 * (a / 360)) by (field; lra).
  lra.
Qed.

Lemma get_bearing_range (p q : point) : 0 <= ox.get_bearing p q < 360.
Proof. unfold ox.get_bearing. apply fmod_range. Qed.

Lemma bearing_of_range (pts : list point) (x : nat) :
  0 <= bearing_of pts x < 360.
Proof.
  unfold bearing_of. destruct (bool_decide (x = 0%nat)); apply get_bearing_range.
Qed.

(** A row of a road: what it holds. *)
Lemma road_rows_In (rrow : road) (row : road_point) :
  In row (road_rows rrow) ->
  exists (g : shapely.LineString) (i : nat),
    geometry rrow = Some g
    /\ highway rrow <> "service"%string
    /\ (1 < List.length (samples g 0.0002))%nat
    /\ (i < List.length (samples g 0.0002))%nat
    /\ row = mkRoadPoint (name rrow)
               (fst (nth i (samples g 0.0002) (0, 0)))
               (snd (nth i (samples g 0.0002) (0, 0)))
               (length rrow) (bearing_of (samples g 0.0002) i).
Proof.
  unfold road_rows, selected.
  destruct (geometry rrow) as [g|] eqn:Hg; [|cbn; contradiction].
  destruct (bool_decide (highway rrow = "service"%string)) eqn:Hhw;
    [rewrite andb_false_r; contradiction|].
  apply bool_decide_eq_false in Hhw. cbn -[Nat.ltb samples].
  destruct (Nat.ltb_spec 1 (List.length (samples g 0.0002))) as [Hlen|Hlen];
    [|contradiction].
  intros Hin. apply in_map_iff in Hin as (i & <- & Hi).
  apply in_seq in Hi as [_ Hi].
  exists g, i. repeat (split; [assumption || reflexivity|]). reflexivity.
Qed.




(** Every bearing of the table lies in [0, 360). *)
Theorem gather_road_points_bearing_range (gdf : list road) :
  exists out : list road_point,
    gather_road_points gdf = Ok out
    /\ forall row : road_point, In row out -> 0 <= bearing row < 360.
Proof.
  exists (flat_map road_rows gdf). split; [apply gather_road_points_rows|].
  intros row Hin. apply in_flat_map in Hin as (rrow & _ & Hin).
  apply road_rows_In in Hin as (g & i & _ & _ & _ & _ & ->).
  cbn [bearing]. apply bearing_of_range.
Qed.

Lemma samples_more_than_one (g : shapely.LineString) :
  (1 < List.length (samples g 0.0002))%nat <-> 0.0002 < shapely.length g.
Proof.
  pose proof (samples_count g 0.0002 ltac:(lra)) as Hcount.
  pose proof (ceilZ_bounds (shapely.length g / 0.0002)) as [Hlo Hhi].
  assert (Hq : shapely.length g = 0.0002 * (shapely.length g / 0.0002))
    by (field; lra).
  split.
  - intros Hlen.
    assert (H2 : (2 <= ceilZ (shapely.length g / 0.0002))%Z) by lia.
    apply IZR_le in H2. lra.
  - intros Hlong.
    assert (H1 : (1 < ceilZ (shapely.length g / 0.0002))%Z).
    { apply lt_IZR. lra. }
    lia.
Qed.

(** A road with a geometry that is not a service road contributes rows
    exactly when its geometry is longer than the step 0.0002: a shorter one
    leaves no row, a longer one leaves at least two. *)
Theorem road_kept_iff_longer_than_step (before after : list road)
    (rrow : road) (g : shapely.LineString) :
  geometry rrow = Some g ->
  highway rrow <> "service"%string ->
  exists out_before rows out_after : list road_point,
    gather_road_points before = Ok out_before
    /\ gather_road_points after = Ok out_after
    /\ gather_road_points (before ++ rrow :: after)
       = Ok (out_before ++ rows ++ out_after)
    /\ (shapely.length g <= 0.0002 -> rows = [])
    /\ (0.0002 < shapely.length g -> (2 <= List.length rows)%nat).
Proof.
  intros Hg Hhw.
  exists (flat_map road_rows before), (road_rows rrow),
    (flat_map road_rows after).
  split; [apply gather_road_points_rows|].
  split; [apply gather_road_points_rows|].
  split; [apply gather_road_points_middle|].
  split.
  - intros Hshort. unfold road_rows. rewrite Hg.
    destruct (selected rrow); [|reflexivity]. cbn -[Nat.ltb samples].
    destruct (Nat.ltb_spec 1 (List.length (samples g 0.0002))) as [Hlen|_];
      [|reflexivity].
    apply samples_more_than_one in Hlen. lra.
  - intros Hlong. apply samples_more_than_one in Hlong.
    rewrite (road_rows_retained rrow g Hg Hhw Hlong).
    rewrite length_map, length_seq. lia.
Qed.

Lemma road_kept_iff_longer_than_step_witness :
  exists out_before rows out_after : list road_point,
    gather_road_points [] = Ok out_before
    /\ gather_road_points [] = Ok out_after
    /\ gather_road_points ([] ++ elm_street :: [])
       = Ok (out_before ++ rows ++ out_after)
    /\ (shapely.length (straight 0.0005) <= 0.0002 -> rows = [])
    /\ (0.0002 < shapely.length (straight 0.0005) ->
        (2 <= List.length rows)%nat).
Proof.
  apply (road_kept_iff_longer_than_step [] [] elm_street (straight 0.0005)).
  - reflexivity.
  - discriminate.
Defined.



Lemma interpolate_start (g : shapely.LineString) :
  shapely.interpolate g 0 = shapely.first g.
Proof.
  unfold shapely.interpolate.
  destruct (Rlt_dec 0 0) as [?|_]; [lra|].
  destruct (Rle_dec 0 0) as [_|?]; [reflexivity|lra].
Qed.

(** For a step [s > 0] the first point that [densify_geometry] returns, if
    it returns one, is the first vertex of the line. *)
Theorem densify_geometry_from_start (g : shapely.LineString) (s : R) :
  0 < s ->
  exists xy : list point,
    densify_geometry g s None = Ok xy
    /\ forall p : point, nth_error xy 0 = Some p -> p = shapely.first g.
Proof.
  intros Hs. exists (samples g s).
  split; [apply densify_geometry_samples; lra|].
  assert (Hnth : forall (i : nat) (p : point),
             nth_error (samples g s) i = Some p ->
             p = shapely.interpolate g (INR i * s)).
  { intros i p Hp.
    assert (Hi : (i < List.length (samples g s))%nat).
    { apply nth_error_Some. now rewrite Hp. }
    rewrite samples_nth in Hp by exact Hi. congruence. }
  intros p Hp. apply Hnth in Hp. subst p.
  replace (INR 0 * s) with 0 by (simpl; ring). apply interpolate_start.
Qed.

Lemma densify_geometry_from_start_witness :
  exists xy : list point,
    densify_geometry (straight 5) 2 None = Ok xy
    /\ forall p : point,
         nth_error xy 0 = Some p -> p = shapely.first (straight 5).
Proof. apply (densify_geometry_from_start (straight 5) 2). lra. Defined.

End SamplerExtras.

(** ** More on the imagery fetcher *)

Module FetcherExtras.

Import Fetcher FetcherFacts FetcherNotions.

Section Stage.

Context {float : Type}.
Variable format_float : float -> string.
Variable metadata_lookup : list params -> result response.
Variable http_get : string -> result string.

Local Abbreviation params_of := (Fetcher.params_of format_float).
Local Abbreviation meta_of :=
  (fun (creds : string) (r : row float) =>
     gather_google_streetview_meta format_float metadata_lookup
       (lat r) (lon r) (bearing r) creds).
Local Abbreviation download_step := (FetcherNotions.download_step http_get).
Local Abbreviation image_of :=
  (FetcherNotions.image_of format_float metadata_lookup).

Lemma download_steps (v : meta_cell) (data_dir : string) (w : world) :
  download_step w (snd (download_google_streetview_image http_get v data_dir w)).
Proof.
  destruct v as [res| |]; try apply step_nothing.
  destruct (r_metadata res) as [|m ms] eqn:Hms.
  { unfold download_google_streetview_image; unfold_st. cbn.
    rewrite Hms, py_index_0. apply step_nothing. }
  destruct (bool_decide (status m = "OK"%string)) eqn:Hok.
  2:{ unfold download_google_streetview_image; unfold_st. cbn.
      rewrite Hms, py_index_0, Hok. apply step_nothing. }
  apply bool_decide_eq_true in Hok.
  destruct (r_links res) as [|url urls] eqn:Hlinks.
  { unfold download_google_streetview_image; unfold_st. cbn.
    rewrite Hms, Hlinks, !py_index_0, (bool_decide_eq_true_2 _ Hok).
    apply step_nothing. }
  destruct (r_params res) as [|p ps] eqn:Hparams.
  { unfold download_google_streetview_image; unfold_st. cbn.
    rewrite Hms, Hlinks, Hparams, !py_index_0, (bool_decide_eq_true_2 _ Hok).
    apply step_nothing. }
  rewrite (download_ok http_get res data_dir w m ms url urls p ps
             Hms Hok Hlinks Hparams). cbn zeta.
  destruct (bool_decide
              (is_Some (files w !! (data_dir +:+ "/" +:+ image_filename p))))
    eqn:Hpresent; [apply step_nothing|].
  apply bool_decide_eq_false in Hpresent.
  destruct (http_get url) as [img|e] eqn:Hget; cbn.
  - apply step_written; [|exact Hget].
    destruct (files w !! _) eqn:Hfile; [|reflexivity].
    exfalso. apply Hpresent. now eexists.
  - apply step_failed.
Qed.

Lemma download_step_keeps (w w' : world) (path content : string) :
  download_step w w' ->
  files w !! path = Some content -> files w' !! path = Some content.
Proof.
  intros [|url|url path' img Hnew Hget] Hpath; cbn; try exact Hpath.
  rewrite lookup_insert_ne; [exact Hpath|]. congruence.
Qed.

(** Whatever it is called on and however it ends,
    [download_google_streetview_image] leaves every file that exists with
    its content, issues at most one request, and changes the files only by
    writing the body of a request that succeeded under a name that was
    free. *)
Theorem download_keeps_files (v : meta_cell) (data_dir : string) (w : world) :
  let w' := snd (download_google_streetview_image http_get v data_dir w) in
  (forall path content : string,
     files w !! path = Some content -> files w' !! path = Some content)
  /\ (fetched w' = fetched w /\ files w' = files w
      \/ exists url : string,
           fetched w' = fetched w ++ [url]
           /\ (files w' = files w
               \/ exists path img : string,
                    files w !! path = None
                    /\ http_get url = Ok img
                    /\ files w' = <[path := img]> (files w))).
Proof.
  cbn zeta. pose proof (download_steps v data_dir w) as Hstep.
  split.
  - intros path content. now apply download_step_keeps.
  - destruct Hstep as [|url|url path img Hnew Hget]; cbn.
    + left. split; reflexivity.
    + right. exists url. split; [reflexivity|]. now left.
    + right. exists url. split; [reflexivity|]. right. now exists path, img.
Qed.

Lemma image_cell_steps (data_dir : string) (meta : meta_cell) (w : world) :
  download_step w (snd (image_cell http_get data_dir meta w)).
Proof.
  unfold image_cell. destruct (ne_None meta).
  - apply download_steps.
  - apply step_nothing.
Qed.

Lemma download_step_log (w w' : world) :
  download_step w w' ->
  exists new : list string,
    fetched w' = fetched w ++ new /\ (List.length new <= 1)%nat.
Proof.
  intros [|url|url path img _ _]; cbn.
  - exists []. split; [now rewrite app_nil_r|cbn; lia].
  - exists [url]. split; [reflexivity|cbn; lia].
  - exists [url]. split; [reflexivity|cbn; lia].
Qed.

Lemma apply_rows_cons_snd (data_dir : string) (meta : meta_cell)
    (metas : list meta_cell) (w : world) :
  snd (apply_rows (image_cell http_get data_dir) (meta :: metas) w)
  = match image_cell http_get data_dir meta w with
    | (Ok _, w1) => snd (apply_rows (image_cell http_get data_dir) metas w1)
    | (Raise _, w1) => w1
    end.
Proof.
  cbn [apply_rows]. unfold_st.
  destruct (image_cell http_get data_dir meta w) as [[v|e] w1]; [|reflexivity].
  destruct (apply_rows (image_cell http_get data_dir) metas w1) as [[vs|e] w2];
    reflexivity.
Qed.

Lemma apply_rows_world (data_dir : string) (metas : list meta_cell) :
  forall w : world,
    let w' := snd (apply_rows (image_cell http_get data_dir) metas w) in
    (forall path content : string,
       files w !! path = Some content -> files w' !! path = Some content)
    /\ exists new : list string,
         fetched w' = fetched w ++ new
         /\ (List.length new <= List.length metas)%nat.
Proof.
  induction metas as [|meta metas IH]; intros w; cbn zeta.
  - cbn. split; [auto|]. exists []. split; [now rewrite app_nil_r|cbn; lia].
  - rewrite apply_rows_cons_snd.
    pose proof (image_cell_steps data_dir meta w) as Hstep.
    destruct (image_cell http_get data_dir meta w) as [[v|e] w1]; cbn in Hstep.
    + destruct (IH w1) as [Hkeep (new & Hlog & Hlen)].
      destruct (download_step_log _ _ Hstep) as (new1 & Hlog1 & Hlen1).
      split.
      * intros path content Hpath. apply Hkeep.
        now apply (download_step_keeps w w1).
      * exists (new1 ++ new). split.
        -- rewrite Hlog, Hlog1, app_assoc. reflexivity.
        -- rewrite length_app. cbn [List.length]. lia.
    + destruct (download_step_log _ _ Hstep) as (new1 & Hlog1 & Hlen1).
      split.
      * intros path content. now apply download_step_keeps.
      * exists new1. split; [exact Hlog1|]. cbn [List.length]. lia.
Qed.

Lemma street_images_snd (creds data_dir : string) (df : list (row float))
    (w : world) :
  snd (street_images format_float metadata_lookup http_get creds data_dir df w)
  = snd (apply_rows (image_cell http_get data_dir)
           (map (meta_of creds) (take 100 df)) w).
Proof.
  unfold street_images; unfold_st.
  destruct (apply_rows _ _ w) as [[images|e] w1]; reflexivity.
Qed.

(** However the stage ends, every file that existed before it still exists
    with its content, the requests of the run are appended to the log, and
    there are at most as many of them as rows that the stage looks at, at
    most 100. *)
Theorem street_images_keeps_files (creds data_dir : string)
    (df : list (row float)) (w : world) :
  let w' :=
    snd (street_images format_float metadata_lookup http_get creds
           data_dir df w) in
  (forall path content : string,
     files w !! path = Some content -> files w' !! path = Some content)
  /\ exists new : list string,
       fetched w' = fetched w ++ new
       /\ (List.length new <= List.length df)%nat
       /\ (List.length new <= 100)%nat.
Proof.
  cbn zeta. rewrite street_images_snd.
  destruct (apply_rows_world data_dir (map (meta_of creds) (take 100 df)) w)
    as [Hkeep (new & Hlog & Hlen)].
  split; [exact Hkeep|]. exists new. split; [exact Hlog|].
  rewrite length_map, length_take in Hlen. lia.
Qed.

(** *** Lookups that raise *)

Lemma apply_rows_no_NA (data_dir : string) (metas : list meta_cell) :
  forall (w w' : world) (images : list (option string)),
    apply_rows (image_cell http_get data_dir) metas w = (Ok images, w') ->
    ~ In PdNA metas.
Proof.
  induction metas as [|meta metas IH]; intros w w' images; [auto|].
  cbn [apply_rows]. unfold_st.
  destruct (image_cell http_get data_dir meta w) as [[v|e] w1] eqn:Hcell;
    [|discriminate].
  destruct (apply_rows (image_cell http_get data_dir) metas w1)
    as [[vs|e] w2] eqn:Hrest; [|discriminate].
  intros _ [->|Hin].
  - discriminate Hcell.
  - now apply (IH _ _ _ Hrest).
Qed.

(** If the lookup raises for one of the first 100 rows, the stage raises and
    exports nothing, wherever that row stands and whatever the other rows
    are. *)
Theorem failed_lookup_fails_stage (creds data_dir : string)
    (df : list (row float)) (r : row float) (w : world) (e : exn) :
  In r (take 100 df) ->
  metadata_lookup [params_of (lat r) (lon r) (bearing r) creds] = Raise e ->
  exists e' : exn,
    fst (street_images format_float metadata_lookup http_get creds
           data_dir df w) = Raise e'.
Proof.
  intros Hin Hraise. unfold street_images; unfold_st.
  destruct (apply_rows _ _ w) as [[images|e'] w1] eqn:Happly.
  - exfalso. apply (apply_rows_no_NA _ _ _ _ _ Happly).
    apply in_map_iff. exists r. split; [|exact Hin].
    now apply (meta_of_exception _ _ _ _ _ _ e).
  - now exists e'.
Qed.

(** *** File names of different points *)

Lemma string_length_app (s t : string) :
  String.length (s +:+ t) = (String.length s + String.length t)%nat.
Proof.
  induction s as [|c s IH]; [reflexivity|].
  change (String c s +:+ t) with (String c (s +:+ t)). cbn. now rewrite IH.
Qed.

Lemma string_app_inv_tail (s1 s2 t : string) :
  s1 +:+ t = s2 +:+ t -> s1 = s2.
Proof.
  revert s2. induction s1 as [|c s1 IH]; intros [|c' s2] Heq.
  - reflexivity.
  - change ("" +:+ t) with t in Heq.
    apply (f_equal String.length) in Heq.
    rewrite string_length_app in Heq. cbn in Heq. lia.
  - change ("" +:+ t) with t in Heq.
    apply (f_equal String.length) in Heq.
    rewrite string_length_app in Heq. cbn in Heq. lia.
  - change (String c (s1 +:+ t) = String c' (s2 +:+ t)) in Heq.
    injection Heq as -> Heq. f_equal. now apply IH.
Qed.

Lemma string_split_at (c : ascii) (s1 s2 r1 r2 : string) :
  free_of c s1 = true -> free_of c s2 = true ->
  s1 +:+ String c r1 = s2 +:+ String c r2 -> s1 = s2 /\ r1 = r2.
Proof.
  revert s2. induction s1 as [|a s1 IH]; intros [|b s2] H1 H2 Heq.
  - cbn in Heq. injection Heq as ->. split; reflexivity.
  - change ((String c r1) = String b (s2 +:+ String c r2)) in Heq.
    injection Heq as <- _. cbn in H2.
    rewrite bool_decide_eq_true_2 in H2 by reflexivity. discriminate.
  - change (String a (s1 +:+ String c r1) = String c r2) in Heq.
    injection Heq as -> _. cbn in H1.
    rewrite bool_decide_eq_true_2 in H1 by reflexivity. discriminate.
  - change (String a (s1 +:+ String c r1) = String b (s2 +:+ String c r2))
      in Heq.
    injection Heq as -> Heq. cbn in H1, H2.
    apply andb_prop in H1 as [_ H1]. apply andb_prop in H2 as [_ H2].
    destruct (IH s2 H1 H2 Heq) as [-> ->]. split; reflexivity.
Qed.

(** Two points get the same image file name only if their latitudes, their
    longitudes and their bearings are formatted alike, provided the formatted
    latitudes and longitudes hold neither a comma nor an underscore (a
    formatted float holds none): no two distinguishable points share a cached
    image. *)
Theorem image_filename_injective (creds1 creds2 : string)
    (lat1 lon1 bearing1 lat2 lon2 bearing2 : float) :
  comma_free (format_float lat1) = true ->
  comma_free (format_float lon1) = true ->
  comma_free (format_float lat2) = true ->
  comma_free (format_float lon2) = true ->
  free_of "_" (format_float lat1) = true ->
  free_of "_" (format_float lon1) = true ->
  free_of "_" (format_float lat2) = true ->
  free_of "_" (format_float lon2) = true ->
  image_filename (params_of lat1 lon1 bearing1 creds1)
  = image_filename (params_of lat2 lon2 bearing2 creds2) ->
  format_float lat1 = format_float lat2
  /\ format_float lon1 = format_float lon2
  /\ format_float bearing1 = format_float bearing2.
Proof.
  intros Hc1 Hc1' Hc2 Hc2' Hu1 Hu1' Hu2 Hu2'.
  unfold image_filename, Fetcher.params_of. cbn [location heading].
  rewrite (replace_comma_location _ _ Hc1 Hc1').
  rewrite (replace_comma_location _ _ Hc2 Hc2').
  rewrite !string_app_assoc. intros Heq.
  apply string_split_at in Heq as [Hlat Heq]; [|assumption..].
  apply string_split_at in Heq as [Hlon Heq]; [|assumption..].
  apply string_app_inv_tail in Heq. auto.
Qed.

(** *** The table of a completed run *)

Lemma image_cell_Some (data_dir : string) (meta : meta_cell) (w w1 : world)
    (path : string) :
  image_cell http_get data_dir meta w = (Ok (Some path), w1) ->
  exists (res : results) (p : params) (ps : list params),
    meta = Results res
    /\ r_params res = p :: ps
    /\ path = data_dir +:+ "/" +:+ image_filename p
    /\ is_Some (files w1 !! path).
Proof.
  destruct meta as [res| |]; cbn [image_cell ne_None]; [|discriminate..].
  destruct (r_metadata res) as [|m ms] eqn:Hms.
  { unfold download_google_streetview_image; unfold_st. cbn.
    rewrite Hms, py_index_0. discriminate. }
  destruct (bool_decide (status m = "OK"%string)) eqn:Hok.
  2:{ unfold download_google_streetview_image; unfold_st. cbn.
      rewrite Hms, py_index_0, Hok. discriminate. }
  apply bool_decide_eq_true in Hok.
  destruct (r_links res) as [|url urls] eqn:Hlinks.
  { unfold download_google_streetview_image; unfold_st. cbn.
    rewrite Hms, Hlinks, !py_index_0, (bool_decide_eq_true_2 _ Hok).
    discriminate. }
  destruct (r_params res) as [|p ps] eqn:Hparams.
  { unfold download_google_streetview_image; unfold_st. cbn.
    rewrite Hms, Hlinks, Hparams, !py_index_0, (bool_decide_eq_true_2 _ Hok).
    discriminate. }
  rewrite (download_ok http_get res data_dir w m ms url urls p ps
             Hms Hok Hlinks Hparams). cbn zeta.
  destruct (bool_decide
              (is_Some (files w !! (data_dir +:+ "/" +:+ image_filename p))))
    eqn:Hpresent.
  - intros [= <- <-]. exists res, p, ps. repeat (split; [reflexivity|]).
    now apply bool_decide_eq_true in Hpresent.
  - destruct (http_get url) as [img|e]; [|discriminate].
    intros [= <- <-]. exists res, p, ps. repeat (split; [reflexivity|]).
    cbn. rewrite lookup_insert_eq. now eexists.
Qed.

Lemma image_cell_None (data_dir : string) (meta : meta_cell) (w w1 : world) :
  image_cell http_get data_dir meta w = (Ok None, w1) ->
  meta = PyNone
  \/ exists (res : results) (m : metadata_entry) (ms : list metadata_entry),
       meta = Results res /\ r_metadata res = m :: ms
       /\ status m <> "OK"%string.
Proof.
  destruct meta as [res| |]; cbn [image_cell ne_None];
    [|now left|discriminate].
  intros Hcell. right.
  destruct (r_metadata res) as [|m ms] eqn:Hms.
  { revert Hcell. unfold download_google_streetview_image; unfold_st. cbn.
    rewrite Hms, py_index_0. discriminate. }
  exists res, m, ms. split; [reflexivity|]. split; [exact Hms|].
  intros Hok. revert Hcell.
  destruct (r_links res) as [|url urls] eqn:Hlinks.
  { unfold download_google_streetview_image; unfold_st. cbn.
    rewrite Hms, Hlinks, !py_index_0, (bool_decide_eq_true_2 _ Hok).
    discriminate. }
  destruct (r_params res) as [|p ps] eqn:Hparams.
  { unfold download_google_streetview_image; unfold_st. cbn.
    rewrite Hms, Hlinks, Hparams, !py_index_0, (bool_decide_eq_true_2 _ Hok).
    discriminate. }
  rewrite (download_ok http_get res data_dir w m ms url urls p ps
             Hms Hok Hlinks Hparams). cbn zeta.
  destruct (bool_decide _); [discriminate|].
  destruct (http_get url); discriminate.
Qed.

Lemma apply_rows_table (creds data_dir : string) (l : list (row float)) :
  forall (w w' : world) (images : list (option string)),
    apply_rows (image_cell http_get data_dir) (map (meta_of creds) l) w
    = (Ok images, w') ->
    map fst (zip l images) = l
    /\ forall (r : row float) (img : option string),
         In (r, img) (zip l images) -> image_of creds data_dir w' r img.
Proof.
  induction l as [|r0 l IH]; intros w w' images.
  - cbn. intros [= <- <-]. split; [reflexivity|]. intros r img [].
  - cbn [map apply_rows]. unfold_st.
    destruct (image_cell http_get data_dir (meta_of creds r0) w)
      as [[v|e] w1] eqn:Hcell; [|discriminate].
    destruct (apply_rows (image_cell http_get data_dir)
                (map (meta_of creds) l) w1) as [[vs|e] w2] eqn:Hrest;
      [|discriminate].
    intros [= <- <-].
    destruct (IH _ _ _ Hrest) as [Hfst Hrows].
    destruct (apply_rows_steady http_get data_dir _ _ _ _ Hrest) as [Hkeep _].
    cbn. split; [now rewrite Hfst|].
    intros r img [[= <- <-]|Hin]; [|now apply Hrows].
    destruct v as [path|]; cbn.
    + apply image_cell_Some in Hcell as (res & p & ps & Hmeta & Hps & -> & Hfile).
      destruct (meta_Results_inv _ _ _ _ _ _ _ Hmeta) as [Hparams _].
      rewrite Hparams in Hps. injection Hps as <- <-.
      split; [reflexivity|]. split; [now apply Hkeep|]. now exists res.
    + apply image_cell_None in Hcell
        as [Hmeta|(res & m & ms & Hmeta & Hms & Hstatus)]; [exact Hmeta|].
      destruct (meta_Results_inv _ _ _ _ _ _ _ Hmeta)
        as [_ (m' & ms' & Hms' & Hok)].
      rewrite Hms in Hms'. injection Hms' as <- <-. contradiction.
Qed.

(** When the stage completes, its table holds the first 100 rows of the
    input in their order; a row with an image path had a successful lookup,
    the path is the file name derived from that row, and the file exists
    when the stage ends; a row without one had a lookup that answered with
    another status than OK. *)
Theorem street_images_table (creds data_dir : string) (df : list (row float))
    (w w' : world) (out : list (row float * option string)) :
  street_images format_float metadata_lookup http_get creds data_dir df w
  = (Ok out, w') ->
  map fst out = take 100 df
  /\ forall (r : row float) (img : option string),
       In (r, img) out ->
       match img with
       | Some path =>
           path = data_dir +:+ "/"
                  +:+ image_filename
                        (params_of (lat r) (lon r) (bearing r) creds)
           /\ is_Some (files w' !! path)
           /\ exists res : results,
                gather_google_streetview_meta format_float metadata_lookup
                  (lat r) (lon r) (bearing r) creds = Results res
       | None =>
           gather_google_streetview_meta format_float metadata_lookup
             (lat r) (lon r) (bearing r) creds = PyNone
       end.
Proof.
  unfold street_images; unfold_st.
  destruct (apply_rows _ _ w) as [[images|e] w1] eqn:Happly; [|discriminate].
  intros [= <- <-].
  destruct (apply_rows_table creds data_dir _ _ _ _ Happly) as [Hfst Hrows].
  split; [exact Hfst|]. intros r img Hin. exact (Hrows r img Hin).
Qed.


End Stage.

Lemma failed_lookup_fails_stage_witness :
  exists e' : exn,
    fst (street_images Decimal.format Providers.unreachable
           Providers.image_server "KEY" "data" [Providers.monroe]
           Providers.no_files) = Raise e'.
Proof.
  apply (failed_lookup_fails_stage Decimal.format Providers.unreachable
           Providers.image_server "KEY" "data" [Providers.monroe]
           Providers.monroe Providers.no_files ConnectionError).
  - left. reflexivity.
  - reflexivity.
Defined.

Lemma image_filename_injective_witness :
  Decimal.format (lat Providers.monroe) = Decimal.format (lat Providers.monroe)
  /\ Decimal.format (lon Providers.monroe)
     = Decimal.format (lon Providers.monroe)
  /\ Decimal.format (bearing Providers.monroe)
     = Decimal.format (bearing Providers.monroe).
Proof.
  apply (image_filename_injective Decimal.format "KEY" "OTHER KEY"
           (lat Providers.monroe) (lon Providers.monroe)
           (bearing Providers.monroe)
           (lat Providers.monroe) (lon Providers.monroe)
           (bearing Providers.monroe)); reflexivity.
Defined.

Lemma street_images_table_witness :
  map fst [(Providers.monroe,
            Some "data/41.8799731_-87.6790694_0.037247.jpg"%string)]
  = take 100 [Providers.monroe]
  /\ forall (r : row Decimal.decimal) (img : option string),
       In (r, img)
         [(Providers.monroe,
           Some "data/41.8799731_-87.6790694_0.037247.jpg"%string)] ->
       match img with
       | Some path =>
           path = "data" +:+ "/"
                  +:+ image_filename
                        (Fetcher.params_of Decimal.format
                           (lat r) (lon r) (bearing r) "KEY")
           /\ is_Some (files FetcherNotions.fetched_monroe !! path)
           /\ exists res : results,
                gather_google_streetview_meta Decimal.format
                  Providers.available (lat r) (lon r) (bearing r) "KEY"
                = Results res
       | None =>
           gather_google_streetview_meta Decimal.format Providers.available
             (lat r) (lon r) (bearing r) "KEY" = PyNone
       end.
Proof.
  apply (street_images_table Decimal.format Providers.available
           Providers.image_server "KEY" "data" [Providers.monroe]
           Providers.no_files FetcherNotions.fetched_monroe).
  vm_compute. reflexivity.
Defined.


End FetcherExtras.

(** ** More on the signage classifier *)

Module PredictorExtras.

Import Predictor PredictorFacts PredictorNotions.

Section Stage.

Context {float : Type}.
Variable isnan : float -> bool.
Variable model : string -> result (list string * list float).

Local Abbreviation predicted_as := (PredictorNotions.predicted_as model).

Lemma apply_rows_app {S A B} (f : A -> st S B) (l1 l2 : list A) (s : S) :
  apply_rows f (l1 ++ l2) s
  = match apply_rows f l1 s with
    | (Ok b1, s1) =>
        match apply_rows f l2 s1 with
        | (Ok b2, s2) => (Ok (b1 ++ b2), s2)
        | (Raise e, s2) => (Raise e, s2)
        end
    | (Raise e, s1) => (Raise e, s1)
    end.
Proof.
  revert s. induction l1 as [|a l1 IH]; intros s.
  - cbn. unfold_st. now destruct (apply_rows f l2 s) as [[b2|e] s2].
  - cbn [app apply_rows]. unfold_st.
    destruct (f a s) as [[b|e] s0]; [|reflexivity].
    rewrite IH.
    destruct (apply_rows f l1 s0) as [[b1|e] s1]; [|reflexivity].
    now destruct (apply_rows f l2 s1) as [[b2|e] s2].
Qed.

Lemma predict_row_answered (x : image_row float) (path : string)
    (calls : list (option string)) (label : string) (labels : list string)
    (prob : float) (probs : list float) :
  google_streetview_image x = Some path ->
  model path = Ok (label :: labels, prob :: probs) ->
  predict_row model x calls
  = (Ok (mkPredicted x (Some (label, prob))), calls ++ [Some path]).
Proof.
  intros Himg Hpath. unfold predict_row. rewrite Himg.
  rewrite bool_decide_eq_true_2 by discriminate.
  unfold gather_predictions, classifyImage; unfold_st.
  rewrite Himg, Hpath. reflexivity.
Qed.

(** The apply on rows whose images the model answers. *)
Lemma apply_rows_answered (df : list (image_row float)) :
  (forall (x : image_row float) (path : string),
     In x df -> google_streetview_image x = Some path ->
     exists label labels prob probs,
       model path = Ok (label :: labels, prob :: probs)) ->
  forall calls : list (option string),
    exists applied : list (predicted_row float),
      apply_rows (predict_row model) df calls
      = (Ok applied, calls ++ with_image df)
      /\ Forall2 predicted_as df applied.
Proof.
  induction df as [|x df IH]; intros Hmodel calls.
  - exists []. split; [|constructor].
    cbn. unfold mret, st_ret. now rewrite app_nil_r.
  - assert (Hrest : forall (y : image_row float) (path : string),
               In y df -> google_streetview_image y = Some path ->
               exists label labels prob probs,
                 model path = Ok (label :: labels, prob :: probs)).
    { intros y path Hy. apply Hmodel. now right. }
    destruct (google_streetview_image x) as [path|] eqn:Himg.
    + destruct (Hmodel x path ltac:(now left) Himg)
        as (label & labels & prob & probs & Hpath).
      destruct (IH Hrest (calls ++ [Some path])) as (applied & Happly & Hall).
      exists (mkPredicted x (Some (label, prob)) :: applied). split.
      * cbn [apply_rows]. unfold_st.
        rewrite (predict_row_answered x path calls _ _ _ _ Himg Hpath), Happly.
        unfold with_image. cbn [map List.filter]. rewrite Himg.
        rewrite bool_decide_eq_true_2 by discriminate.
        now rewrite <- app_assoc.
      * constructor; [|exact Hall]. unfold predicted_as. rewrite Himg.
        now exists label, labels, prob, probs.
    + destruct (IH Hrest calls) as (applied & Happly & Hall).
      exists (mkPredicted x None :: applied). split.
      * cbn [apply_rows]. unfold_st.
        rewrite (predict_row_without_image model x calls Himg), Happly.
        unfold with_image. cbn [map List.filter]. rewrite Himg.
        rewrite bool_decide_eq_false_2 by (intros Hne; now apply Hne).
        reflexivity.
      * constructor; [|exact Hall]. unfold predicted_as. now rewrite Himg.
Qed.

(** When the stage completes, the prediction of every row with an image is
    the first label and the first probability that the model returns for
    that image, and an exported row is such a row, with a road name and
    without a NaN among its numbers; the export keeps the order of the
    input. *)
Theorem exported_predictions (df : list (image_row float))
    (export : list (predicted_row float)) (calls : list (option string)) :
  answers model ->
  model_predict isnan model df [] = (Ok export, calls) ->
  (forall r : predicted_row float, In r export ->
     exists (path label : string) (labels : list string)
            (prob : float) (probs : list float),
       In (source r) df
       /\ google_streetview_image (source r) = Some path
       /\ model path = Ok (label :: labels, prob :: probs)
       /\ schoolsign r = Some (label, prob)
       /\ is_Some (road_name (source r))
       /\ isnan (lon (source r)) = false
       /\ isnan (lat (source r)) = false
       /\ isnan (road_length (source r)) = false
       /\ isnan (bearing (source r)) = false
       /\ isnan prob = false)
  /\ sublist (map source export) df
  /\ (List.length export <= List.length calls)%nat.
Proof.
  intros Hmodel.
  destruct (apply_rows_answered df (fun x path _ _ => Hmodel path) [])
    as (applied & Happly & Hall).
  cbn [app] in Happly.
  destruct df as [|x0 df0]; [discriminate|].
  set (df := x0 :: df0) in *.
  unfold model_predict. rewrite apply_predictions_rows by discriminate.
  unfold_st. rewrite Happly.
  destruct (has_columns applied); [|discriminate].
  intros [= <- <-].
  assert (Hsub : forall l k, Forall2 predicted_as l k ->
            sublist (map source (dropna isnan k)) l
            /\ (List.length (dropna isnan k) <= List.length (with_image l))%nat
            /\ forall r, In r (dropna isnan k) ->
                 In (source r) l /\ predicted_as (source r) r).
  { clear. intros l k Hall.
    induction Hall as [|x r l k Hx Hall (IHsub & IHlen & IHin)].
    - cbn. split; [constructor|]. split; [lia|]. intros r [].
    - assert (Hsrc : source r = x).
      { unfold predicted_as in Hx. destruct (google_streetview_image x).
        - destruct Hx as (? & ? & ? & ? & _ & ->). reflexivity.
        - now subst r. }
      unfold dropna, with_image in *. cbn [List.filter map].
      destruct (notna isnan r) eqn:Hna.
      + assert (Himg : is_Some (google_streetview_image x)).
        { unfold notna in Hna. rewrite Hsrc in Hna.
          repeat (apply andb_prop in Hna as [Hna ?]).
          match goal with
          | H : bool_decide (is_Some (google_streetview_image _)) = true |- _ =>
              now apply bool_decide_eq_true in H
          end. }
        destruct Himg as [path Himg]. rewrite Himg.
        rewrite bool_decide_eq_true_2 by discriminate.
        cbn [map List.length]. rewrite Hsrc.
        split; [now constructor|]. split; [lia|].
        intros r' [<-|Hin].
        * rewrite Hsrc. split; [now left|exact Hx].
        * destruct (IHin r' Hin) as [Hin' Hp]. split; [now right|exact Hp].
      + split; [now constructor|]. split.
        * destruct (bool_decide (google_streetview_image x <> None));
            cbn [List.length]; lia.
        * intros r' Hin. destruct (IHin r' Hin) as [Hin' Hp].
          split; [now right|exact Hp]. }
  destruct (Hsub df applied Hall) as (Hsublist & Hlen & Hin).
  split; [|split; [exact Hsublist|exact Hlen]].
  intros r Hr. destruct (Hin r Hr) as [Hsrc Hpred].
  apply filter_In in Hr as [_ Hna]. unfold notna in Hna.
  repeat (apply andb_prop in Hna as [Hna ?]).
  repeat match goal with
         | H : negb _ = true |- _ => apply negb_true_iff in H
         | H : bool_decide _ = true |- _ => apply bool_decide_eq_true in H
         end.
  unfold predicted_as in Hpred.
  destruct (google_streetview_image (source r)) as [path|] eqn:Himg.
  - destruct Hpred as (label & labels & prob & probs & Hpath & Hr).
    exists path, label, labels, prob, probs.
    assert (Hsign : schoolsign r = Some (label, prob)) by (now rewrite Hr).
    rewrite Hsign in *.
    repeat (split; [assumption || reflexivity|]).
    match goal with H : negb (isnan prob) = true |- _ =>
      now apply negb_true_iff in H end.
  - match goal with H : is_Some None |- _ => destruct H; discriminate end.
Qed.

(** The first image that the model fails on stops the stage with the error
    of the model: the images of the rows before it have been classified, the
    rows after it are not looked at, and nothing is exported. *)
Theorem unclassifiable_image_stops_stage (before after : list (image_row float))
    (x : image_row float) (path : string) (e : exn) :
  (forall (y : image_row float) (p : string),
     In y before -> google_streetview_image y = Some p ->
     exists label labels prob probs,
       model p = Ok (label :: labels, prob :: probs)) ->
  google_streetview_image x = Some path ->
  model path = Raise e ->
  model_predict isnan model (before ++ x :: after) []
  = (Raise e, with_image before ++ [Some path]).
Proof.
  intros Hbefore Himg Hpath.
  destruct (apply_rows_answered before Hbefore []) as (applied & Happly & _).
  cbn [app] in Happly.
  unfold model_predict.
  rewrite apply_predictions_rows by (now destruct before).
  unfold_st. rewrite apply_rows_app, Happly.
  cbn [apply_rows]. unfold_st. unfold predict_row at 1.
  rewrite Himg. rewrite bool_decide_eq_true_2 by discriminate.
  unfold gather_predictions, classifyImage; unfold_st.
  rewrite Himg, Hpath. reflexivity.
Qed.

Lemma apply_rows_imageless (df : list (image_row float))
    (calls : list (option string)) :
  (forall x : image_row float, In x df -> google_streetview_image x = None) ->
  apply_rows (predict_row model) df calls
  = (Ok (map (fun x => mkPredicted x None) df), calls).
Proof.
  induction df as [|x df IH]; intros Hall; [reflexivity|].
  cbn [apply_rows map]. unfold_st.
  rewrite (predict_row_without_image model x calls (Hall x ltac:(now left))).
  rewrite IH by (intros y Hy; apply Hall; now right). reflexivity.
Qed.

(** On a table without a single image the stage raises the [KeyError] of
    the missing prediction columns and exports nothing. The classifier is
    not called, but for the one call that pandas makes on a row of NaN when
    the table has no rows. *)
Theorem imageless_table_raises (df : list (image_row float)) :
  (forall x : image_row float, In x df -> google_streetview_image x = None) ->
  model_predict isnan model df []
  = (Raise (KeyError "schoolsign_prediction"),
     match df with
     | [] => [None]
     | _ :: _ => []
     end).
Proof.
  intros Hall. destruct df as [|x0 df0]; [reflexivity|].
  set (df := x0 :: df0) in *.
  unfold model_predict. rewrite apply_predictions_rows by discriminate.
  unfold_st. rewrite (apply_rows_imageless df [] Hall).
  replace (has_columns (map (fun x => mkPredicted x None) df)) with false;
    [reflexivity|].
  clear. induction df as [|x df IH]; [reflexivity|]. cbn. exact IH.
Qed.

End Stage.

Lemma exported_predictions_witness :
  (forall r : predicted_row Decimal.decimal,
     In r [mkPredicted PredictorNotions.row_with_image
             (Some ("schoolsign"%string, Decimal.mkDecimal 100 0))] ->
     exists (path label : string) (labels : list string)
            (prob : Decimal.decimal) (probs : list Decimal.decimal),
       In (source r) Providers.street_view_table
       /\ google_streetview_image (source r) = Some path
       /\ Providers.signage_model path = Ok (label :: labels, prob :: probs)
       /\ schoolsign r = Some (label, prob)
       /\ is_Some (road_name (source r))
       /\ Providers.never_nan (lon (source r)) = false
       /\ Providers.never_nan (lat (source r)) = false
       /\ Providers.never_nan (road_length (source r)) = false
       /\ Providers.never_nan (bearing (source r)) = false
       /\ Providers.never_nan prob = false)
  /\ sublist
       (map source
          [mkPredicted PredictorNotions.row_with_image
             (Some ("schoolsign"%string, Decimal.mkDecimal 100 0))])
       Providers.street_view_table
  /\ (List.length
        [mkPredicted PredictorNotions.row_with_image
           (Some ("schoolsign"%string, Decimal.mkDecimal 100 0))]
      <= List.length
           [Some "data/41.8799731_-87.6790694_0.037247.jpg"%string])%nat.
Proof.
  apply (exported_predictions Providers.never_nan Providers.signage_model
           Providers.street_view_table).
  - intros path.
    exists "schoolsign"%string, [], (Decimal.mkDecimal 100 0), [].
    reflexivity.
  - reflexivity.
Defined.

Lemma unclassifiable_image_stops_stage_witness :
  model_predict Providers.never_nan PredictorNotions.broken_model
    ([PredictorNotions.row_without_image]
     ++ PredictorNotions.row_with_image
     :: [PredictorNotions.row_with_image]) []
  = (Raise ValueError,
     with_image [PredictorNotions.row_without_image]
     ++ [Some "data/41.8799731_-87.6790694_0.037247.jpg"%string]).
Proof.
  apply (unclassifiable_image_stops_stage Providers.never_nan
           PredictorNotions.broken_model
           [PredictorNotions.row_without_image]
           [PredictorNotions.row_with_image]
           PredictorNotions.row_with_image
           "data/41.8799731_-87.6790694_0.037247.jpg" ValueError).
  - intros y p [<-|[]]. discriminate.
  - reflexivity.
  - reflexivity.
Defined.

Lemma imageless_table_raises_witness :
  model_predict Providers.never_nan Providers.signage_model
    [PredictorNotions.row_without_image] []
  = (Raise (KeyError "schoolsign_prediction"), []).
Proof.
  apply (imageless_table_raises Providers.never_nan Providers.signage_model
           [PredictorNotions.row_without_image]).
  intros x [<-|[]]. reflexivity.
Defined.

End PredictorExtras.

(** ** The choice of the model file *)

Module LatestModelFacts.

Import LatestModel.

Lemma key_greater (a b : Q) : negb (Qle_bool a b) = true <-> (b < a)%Q.
Proof.
  rewrite negb_true_iff. split.
  - intros Hle. apply Qnot_le_lt. intros H. apply Qle_bool_iff in H. congruence.
  - intros Hlt. destruct (Qle_bool a b) eqn:Hle; [|reflexivity].
    apply Qle_bool_iff in Hle. exfalso. now apply (Qlt_not_le b a).
Qed.

Lemma key_not_greater (a b : Q) : negb (Qle_bool a b) = false <-> (a <= b)%Q.
Proof. rewrite negb_false_iff. apply Qle_bool_iff. Qed.

(** The scan keeps the best item so far ahead of what it has passed. *)
Lemma max_from_split {A} (key : A -> Q) (items : list A) :
  forall (before : list A) (best : A) (passed : list A),
    (forall x, In x before -> (key x < key best)%Q) ->
    (forall x, In x passed -> (key x <= key best)%Q) ->
    exists l1 l2 : list A,
      before ++ best :: passed ++ items = l1 ++ max_from key best items :: l2
      /\ (forall x, In x l1 -> (key x < key (max_from key best items))%Q)
      /\ (forall x, In x l2 -> (key x <= key (max_from key best items))%Q).
Proof.
  induction items as [|item items IH]; intros before best passed Hbefore Hpassed.
  - exists before, passed. cbn. rewrite app_nil_r. auto.
  - cbn [max_from].
    destruct (negb (Qle_bool (key item) (key best))) eqn:Hcmp.
    + apply key_greater in Hcmp.
      destruct (IH (before ++ best :: passed) item []) as (l1 & l2 & Heq & H1 & H2).
      * intros x Hx. apply in_app_iff in Hx as [Hx|[<-|Hx]].
        -- apply Qlt_trans with (key best); auto.
        -- exact Hcmp.
        -- apply Qle_lt_trans with (key best); auto.
      * intros x [].
      * exists l1, l2. split; [|auto].
        rewrite <- Heq. cbn. now rewrite <- app_assoc.
    + apply key_not_greater in Hcmp.
      destruct (IH before best (passed ++ [item])) as (l1 & l2 & Heq & H1 & H2).
      * exact Hbefore.
      * intros x Hx. apply in_app_iff in Hx as [Hx|[<-|[]]]; auto.
      * exists l1, l2. split; [|auto].
        rewrite <- Heq. now rewrite <- app_assoc.
Qed.

(** The model file that the notebook loads is a file of the list that no
    file of the list is newer than, and of several files of that
    modification time the one that the list has first; an empty list raises
    [ValueError]. *)
Theorem latest_file_newest (getmtime : string -> Q)
    (list_of_files : list string) :
  match list_of_files with
  | [] => latest_file getmtime list_of_files = Raise ValueError
  | _ :: _ =>
      exists (file : string) (l1 l2 : list string),
        latest_file getmtime list_of_files = Ok file
        /\ list_of_files = l1 ++ file :: l2
        /\ (forall x, In x l1 -> (getmtime x < getmtime file)%Q)
        /\ (forall x, In x l2 -> (getmtime x <= getmtime file)%Q)
  end.
Proof.
  destruct list_of_files as [|first files]; [reflexivity|].
  destruct (max_from_split getmtime files [] first [])
    as (l1 & l2 & Heq & H1 & H2); [intros x []..|].
  exists (max_from getmtime first files), l1, l2.
  split; [reflexivity|]. split; [exact Heq|]. auto.
Qed.

(** Of two files written at the same time the first of the list is loaded. *)
Example latest_file_of_a_tie :
  latest_file model_mtime model_files
  = Ok "models/model_ex-008_acc-1.000000.h5"%string.
Proof. reflexivity. Qed.

End LatestModelFacts.

(** ** The school locator *)

Module SchoolsFacts.

Import Fetcher FetcherNotions Schools.

Ltac unfold_io := unfold mbind, io_bind, mret, io_ret, finish.

Lemma string_app_inv_head (s a b : string) : s +:+ a = s +:+ b -> a = b.
Proof.
  induction s as [|c s IH]; [auto|].
  change (String c (s +:+ a) = String c (s +:+ b) -> a = b).
  intros [= Heq]. now apply IH.
Qed.

Lemma data_path_inj (cwd a b : string) :
  data_path cwd a = data_path cwd b -> a = b.
Proof.
  unfold data_path. intros Heq.
  apply string_app_inv_head in Heq. now apply string_app_inv_head in Heq.
Qed.

Lemma basename_plain (p : string) : free_of "/" p = true -> basename p = p.
Proof.
  destruct p as [|c p]; [reflexivity|]. cbn.
  intros Hfree. apply andb_prop in Hfree as [Hc Hp]. rewrite Hp.
  apply negb_true_iff in Hc. now rewrite Hc.
Qed.

Section Notebook.

Context {float : Type}.
Variable http : string -> result (Z * string).
Variable zip_members : string -> option (list (string * string)).
Variable read_excel : string -> result (frame float).
Variable read_csv : string -> result (frame float).
Variable cwd : string.
Variable P : parameters.

Local Abbreviation target_path := (data_path cwd (basename (target P))).
Local Abbreviation archive_path := (data_path cwd (basename (link P))).

(** *** The download and the unzip *)

Lemma in_data_plain (file : string) (w : world) :
  plain file = true -> in_data cwd file w = (Done (data_path cwd file), w).
Proof. intros Hplain. unfold in_data, finish. now rewrite Hplain. Qed.

Lemma plain_basename (p : string) : plain p = true -> basename p = p.
Proof.
  unfold plain. rewrite !andb_true_iff. intros [[[[Hfree _] _] _] _].
  now apply basename_plain.
Qed.

Lemma download_cell_present (w : world) :
  plain (basename (target P)) = true ->
  is_Some (files w !! target_path) ->
  download_cell http cwd P w = (Done tt, w).
Proof.
  intros Hplain Hpresent. unfold download_cell; unfold_io.
  rewrite in_data_plain by exact Hplain. unfold isfile.
  now rewrite (bool_decide_eq_true_2 _ Hpresent).
Qed.

Lemma unzip_cell_present (w : world) :
  plain (basename (target P)) = true ->
  is_Some (files w !! target_path) ->
  unzip_cell zip_members cwd P w = (Done tt, w).
Proof.
  intros Hplain Hpresent. unfold unzip_cell; unfold_io.
  destruct (unzip P); [|reflexivity].
  rewrite in_data_plain by exact Hplain. unfold isfile.
  now rewrite (bool_decide_eq_true_2 _ Hpresent).
Qed.

Lemma download_cell_absent (w : world) :
  plain (basename (target P)) = true ->
  plain (basename (link P)) = true ->
  files w !! target_path = None ->
  download_cell http cwd P w
  = match http (link P) with
    | Ok (status, body) =>
        (Done tt,
         mkWorld (if (status =? 200)%Z
                  then <[archive_path := body]> (files w) else files w)
           (fetched w ++ [link P]))
    | Raise e => (Fails (Python e), mkWorld (files w) (fetched w ++ [link P]))
    end.
Proof.
  intros Htarget Hlink Habsent. unfold download_cell; unfold_io.
  rewrite in_data_plain by exact Htarget. unfold isfile, requests_get.
  rewrite bool_decide_eq_false_2 by (rewrite Habsent; now intros [? ?]).
  cbn. destruct (http (link P)) as [[status body]|e]; [|reflexivity].
  cbn. destruct (status =? 200)%Z; [|reflexivity].
  unfold in_data, finish, write. now rewrite Hlink.
Qed.

(** The files after the members of an archive have been written. *)
Lemma extractall_run (archive : string) (members : list (string * string)) :
  (forall member, In member (map fst members) ->
     plain member = true /\ member <> archive) ->
  forall w : world,
    extractall cwd archive members w
    = (Done tt,
       mkWorld
         (fold_left (fun m member => <[data_path cwd member.1 := member.2]> m)
            members (files w))
         (fetched w)).
Proof.
  induction members as [|[member data] members IH]; intros Hnames w.
  - now destruct w.
  - cbn [extractall fold_left].
    destruct (Hnames member (or_introl eq_refl)) as [Hplain Hother].
    rewrite (bool_decide_eq_false_2 _ Hother). unfold_io.
    rewrite in_data_plain by exact Hplain. unfold write.
    rewrite IH by (intros n Hn; apply Hnames; now right). reflexivity.
Qed.

Lemma extracted_other (members : list (string * string)) (path : string) :
  forall m : gmap string string,
    (forall member, In member (map fst members) ->
       data_path cwd member <> path) ->
    fold_left (fun m member => <[data_path cwd member.1 := member.2]> m)
      members m !! path = m !! path.
Proof.
  induction members as [|[member data] members IH]; intros m Hother;
    [reflexivity|].
  cbn [fold_left]. rewrite IH by (intros n Hn; apply Hother; now right).
  apply lookup_insert_ne. apply Hother. now left.
Qed.

Lemma extracted_member (members : list (string * string))
    (member data : string) :
  forall m : gmap string string,
    NoDup (map fst members) -> In (member, data) members ->
    fold_left (fun m member => <[data_path cwd member.1 := member.2]> m)
      members m !! data_path cwd member = Some data.
Proof.
  induction members as [|[n d] members IH]; intros m Hnodup Hin; [destruct Hin|].
  cbn [map fst] in Hnodup. apply NoDup_cons in Hnodup as [Hfresh Hnodup].
  cbn [fold_left]. destruct Hin as [[= -> ->]|Hin].
  - rewrite extracted_other.
    + cbn. apply lookup_insert_eq.
    + intros n Hn Heq. apply data_path_inj in Heq. subst n.
      apply Hfresh. now apply list_elem_of_In.
  - now apply IH.
Qed.

(** If the target is missing, the server answers the link with status 200
    and an archive whose members have distinct plain names, none the name
    of the archive, and that holds the target, then after the download and
    the unzip the target holds the bytes of that member, one request has
    been made, and the two cells run again make no request and change
    nothing. *)
Theorem fetch_yields_target (w : world) (body data : string)
    (members : list (string * string)) :
  plain (basename (link P)) = true ->
  files w !! target_path = None ->
  unzip P = true ->
  http (link P) = Ok (200%Z, body) ->
  zip_members body = Some members ->
  NoDup (map fst members) ->
  (forall member, In member (map fst members) ->
     plain member = true /\ member <> basename (link P)) ->
  In (basename (target P), data) members ->
  exists w' : world,
    fetch http zip_members cwd P w = (Done tt, w')
    /\ files w' !! target_path = Some data
    /\ fetched w' = fetched w ++ [link P]
    /\ fetch http zip_members cwd P w' = (Done tt, w').
Proof.
  intros Hlink Habsent Hunzip Hget Hzip Hnodup Hnames Hmember.
  assert (Htarget : plain (basename (target P)) = true
                    /\ basename (target P) <> basename (link P)).
  { apply Hnames. apply in_map_iff. now exists (basename (target P), data). }
  destruct Htarget as [Htarget Hother].
  assert (Hpaths : archive_path <> target_path).
  { intros Heq. apply data_path_inj in Heq. now symmetry in Heq. }
  eexists. split; [|split; [|split]].
  - unfold fetch; unfold_io.
    rewrite (download_cell_absent w Htarget Hlink Habsent), Hget.
    cbn. unfold unzip_cell; unfold_io. rewrite Hunzip.
    rewrite (in_data_plain (basename (target P))) by exact Htarget.
    unfold isfile. cbn [files fetched].
    rewrite bool_decide_eq_false_2.
    2:{ rewrite lookup_insert_ne, Habsent by exact Hpaths. now intros [? ?]. }
    cbn [negb]. rewrite (in_data_plain (basename (link P))) by exact Hlink.
    unfold read. cbn [files fetched]. rewrite lookup_insert_eq, Hzip.
    rewrite extractall_run by exact Hnames. reflexivity.
  - cbn. now apply extracted_member.
  - reflexivity.
  - unfold fetch; unfold_io.
    rewrite download_cell_present, unzip_cell_present; [reflexivity|..];
      try exact Htarget;
      cbn; rewrite (extracted_member members _ data) by assumption;
      now eexists.
Qed.

(** If the target and the archive are missing and the server answers the
    link with another status than 200, the download cell completes without
    writing, and with [unzip] set it is the unzip cell that fails, with the
    [FileNotFoundError] of the archive. *)
Theorem refused_download_fails_at_unzip (w : world) (status : Z)
    (body : string) :
  plain (basename (target P)) = true ->
  plain (basename (link P)) = true ->
  files w !! target_path = None ->
  files w !! archive_path = None ->
  unzip P = true ->
  http (link P) = Ok (status, body) ->
  status <> 200%Z ->
  download_cell http cwd P w
  = (Done tt, mkWorld (files w) (fetched w ++ [link P]))
  /\ fetch http zip_members cwd P w
     = (Fails (FileNotFoundError archive_path),
        mkWorld (files w) (fetched w ++ [link P])).
Proof.
  intros Hplain Hlink Htarget Harchive Hunzip Hget Hstatus.
  assert (Hdl : download_cell http cwd P w
                = (Done tt, mkWorld (files w) (fetched w ++ [link P]))).
  { rewrite (download_cell_absent w Hplain Hlink Htarget), Hget.
    destruct (Z.eqb_spec status 200); [contradiction|reflexivity]. }
  split; [exact Hdl|].
  unfold fetch; unfold_io. rewrite Hdl.
  unfold unzip_cell; unfold_io. rewrite Hunzip.
  rewrite (in_data_plain (basename (target P))) by exact Hplain.
  unfold isfile. cbn [files fetched].
  rewrite bool_decide_eq_false_2 by (rewrite Htarget; now intros [? ?]).
  cbn [negb]. rewrite (in_data_plain (basename (link P))) by exact Hlink.
  unfold read. cbn [files fetched]. rewrite Harchive. reflexivity.
Qed.

(** *** The read, the rename and the filter *)

Lemma rename_label_city (label : string) :
  rename_label P label = "CITY"%string
  <-> label = "CITY"%string
      /\ lat_colname P <> "CITY"%string /\ lon_colname P <> "CITY"%string.
Proof.
  unfold rename_label.
  destruct (bool_decide (label = lon_colname P)) eqn:Hlon.
  { apply bool_decide_eq_true in Hlon. split; [discriminate|].
    intros (-> & _ & Hne). now destruct Hne. }
  destruct (bool_decide (label = lat_colname P)) eqn:Hlat.
  { apply bool_decide_eq_true in Hlat. split; [discriminate|].
    intros (-> & Hne & _). now destruct Hne. }
  apply bool_decide_eq_false in Hlon, Hlat.
  split; [|now intros [-> _]].
  intros ->. repeat split; congruence.
Qed.

Lemma positions_absent (label : string) (labels : list string) :
  forall k : nat,
    (forall l, In l labels -> l <> label) -> positions label labels k = [].
Proof.
  induction labels as [|l labels IH]; intros k Habsent; [reflexivity|].
  cbn. rewrite bool_decide_eq_false_2 by (apply Habsent; now left).
  apply IH. intros l' Hl'. apply Habsent. now right.
Qed.

Lemma positions_map (f : string -> string) (label : string)
    (labels : list string) :
  (forall l, f l = label <-> l = label) ->
  forall k : nat, positions label (map f labels) k = positions label labels k.
Proof.
  intros Hf. induction labels as [|l labels IH]; intros k; [reflexivity|].
  cbn. rewrite (bool_decide_ext _ _ (Hf l)), IH. reflexivity.
Qed.

Lemma positions_unique (label : string) (labels : list string) :
  forall i k : nat,
    NoDup labels -> nth_error labels i = Some label ->
    positions label labels k = [(k + i)%nat].
Proof.
  induction labels as [|l labels IH]; intros i k Hnodup Hi;
    [destruct i; discriminate|].
  apply NoDup_cons in Hnodup as [Hfresh Hnodup].
  destruct i as [|i]; cbn in Hi |- *.
  - injection Hi as ->. rewrite bool_decide_eq_true_2 by reflexivity.
    rewrite positions_absent.
    + f_equal. lia.
    + intros l Hl ->. apply Hfresh. now apply list_elem_of_In.
  - rewrite bool_decide_eq_false_2.
    + rewrite (IH i (S k) Hnodup Hi). f_equal. lia.
    + intros ->. apply Hfresh. apply list_elem_of_In.
      now apply nth_error_In with i.
Qed.

Lemma is_chicago_true (c : cell float) :
  is_chicago c = true <-> c = Str "Chicago".
Proof.
  destruct c as [s|x|]; cbn; [|split; discriminate..].
  rewrite bool_decide_eq_true. split; [now intros ->|now intros [= ->]].
Qed.

Lemma In_take {A} (n : nat) (l : list A) (a : A) : In a (take n l) -> In a l.
Proof.
  revert n. induction l as [|b l IH]; intros [|n]; cbn; try (now intros []).
  intros [->|Hin]; [now left|right; now apply (IH n)].
Qed.

Lemma filter_sublist {A} (f : A -> bool) (l : list A) :
  sublist (List.filter f l) l.
Proof.
  induction l as [|a l IH]; [constructor|].
  cbn. destruct (f a); now constructor.
Qed.

(** For a frame with distinct labels that has a column [CITY] which the
    parameters do not rename, the rename and the filter complete; the frame
    that they hand to the export has the labels of the frame that was read,
    renamed, and holds at most five rows, rows of that frame in their order
    whose city is Chicago, and all such rows when they are fewer than
    five. *)
Theorem standardize_first_five_of_chicago (df : frame float) (i : nat) :
  NoDup (columns df) ->
  nth_error (columns df) i = Some "CITY"%string ->
  lat_colname P <> "CITY"%string ->
  lon_colname P <> "CITY"%string ->
  exists out : frame float,
    standardize P (Some df) = Done out
    /\ columns out = map (rename_label P) (columns df)
    /\ (List.length (rows out) <= 5)%nat
    /\ sublist (rows out) (rows df)
    /\ (forall row, In row (rows out) -> nth i row NaN = Str "Chicago")
    /\ ((List.length (rows out) < 5)%nat ->
        forall row, In row (rows df) -> nth i row NaN = Str "Chicago" ->
                    In row (rows out)).
Proof using P.
  intros Hnodup Hi Hlat Hlon.
  unfold standardize, rename_cell, filter_cell. cbn [columns rows].
  rewrite positions_map
    by (intros l; rewrite rename_label_city;
        split; [now intros [Hl _]|intros Hl; repeat split; assumption]).
  rewrite (positions_unique _ _ i 0 Hnodup Hi). cbn [Nat.add].
  eexists. split; [reflexivity|]. cbn [columns rows].
  set (chicago := List.filter (fun row => is_chicago (nth i row NaN)) (rows df)).
  split; [reflexivity|].
  split; [apply firstn_le_length|].
  split.
  { transitivity chicago; [apply sublist_take|apply filter_sublist]. }
  split.
  - intros row Hrow. apply is_chicago_true.
    assert (Hin : In row chicago) by (now apply (In_take 5)).
    now apply filter_In in Hin as [_ Hin].
  - intros Hfew row Hrow Hcity.
    rewrite take_ge.
    + apply filter_In. split; [exact Hrow|now apply is_chicago_true].
    + rewrite length_take in Hfew. lia.
Qed.

(** Without a column [CITY], or with [lat_colname] or [lon_colname] set to
    [CITY], the filter raises [KeyError] and the export is not reached. *)
Theorem standardize_without_city (df : frame float) :
  ~ In "CITY"%string (columns df)
  \/ lat_colname P = "CITY"%string \/ lon_colname P = "CITY"%string ->
  standardize P (Some df) = Fails (Python (KeyError "CITY")).
Proof.
  intros Hcity. unfold standardize, rename_cell, filter_cell. cbn [columns].
  rewrite positions_absent; [reflexivity|].
  intros l Hl. apply in_map_iff in Hl as (l0 & <- & Hl0).
  intros Hren. apply rename_label_city in Hren as (-> & Hlat & Hlon).
  destruct Hcity as [Habsent|[Heq|Heq]]; contradiction.
Qed.

(** With the target in place and an extension that is neither [.xlsx] nor
    [.csv], no request is made, no reader is called and the rename cell
    raises the [NameError] of the unbound [df]. *)
Theorem unknown_extension_leaves_df_unbound (w : world) :
  plain (basename (target P)) = true ->
  is_Some (files w !! target_path) ->
  extension (target P) <> ".xlsx"%string ->
  extension (target P) <> ".csv"%string ->
  schools http zip_members read_excel read_csv cwd P w
  = (Fails (Python (NameError "df")), w).
Proof.
  intros Hplain Hpresent Hxlsx Hcsv. unfold schools, fetch; unfold_io.
  rewrite download_cell_present, unzip_cell_present by assumption.
  unfold read_cell. rewrite !bool_decide_eq_false_2 by assumption.
  reflexivity.
Qed.

(** With [unzip] off, a target that is missing and a link whose last
    component is not the target, the download is stored under the name of
    the link, if at all, and the read fails with the [FileNotFoundError] of
    the target. *)
Theorem download_without_unzip_misses_target (w : world) (status : Z)
    (body : string) :
  plain (target P) = true ->
  plain (basename (link P)) = true ->
  unzip P = false ->
  basename (link P) <> target P ->
  files w !! data_path cwd (target P) = None ->
  http (link P) = Ok (status, body) ->
  extension (target P) = ".xlsx"%string
  \/ extension (target P) = ".csv"%string ->
  fst (schools http zip_members read_excel read_csv cwd P w)
  = Fails (FileNotFoundError (data_path cwd (target P))).
Proof.
  intros Hplain Hlink Hunzip Hnames Habsent Hget Hext.
  pose proof (plain_basename _ Hplain) as Hbase.
  unfold schools, fetch; unfold_io.
  rewrite download_cell_absent by (rewrite ?Hbase; assumption). rewrite Hget.
  set (w1 := mkWorld _ _).
  assert (Habsent1 : files w1 !! data_path cwd (target P) = None).
  { unfold w1. cbn. destruct (status =? 200)%Z; [|exact Habsent].
    rewrite lookup_insert_ne; [exact Habsent|].
    intros Heq. now apply data_path_inj in Heq. }
  unfold unzip_cell; unfold_io. rewrite Hunzip.
  unfold read_cell, parse; unfold_io.
  destruct Hext as [Hext|Hext].
  - rewrite (bool_decide_eq_true_2 _ Hext).
    rewrite in_data_plain by exact Hplain. unfold read.
    now rewrite Habsent1.
  - destruct (bool_decide (extension (target P) = ".xlsx"%string));
      [|rewrite (bool_decide_eq_true_2 _ Hext)];
      rewrite in_data_plain by exact Hplain; unfold read;
      now rewrite Habsent1.
Qed.

End Notebook.

Lemma fetch_yields_target_witness :
  exists w' : world,
    fetch serving archive_members "/home/user" defaults Providers.no_files
    = (Done tt, w')
    /\ files w' !! data_path "/home/user" (basename (target defaults))
       = Some "sheet"%string
    /\ fetched w' = fetched Providers.no_files ++ [link defaults]
    /\ fetch serving archive_members "/home/user" defaults w' = (Done tt, w').
Proof.
  apply (fetch_yields_target serving archive_members "/home/user" defaults
           Providers.no_files "PK archive" "sheet"
           [("EDGE_GEOCODE_PUBLICSCH_1819.xlsx"%string, "sheet"%string)]).
  - reflexivity.
  - reflexivity.
  - reflexivity.
  - reflexivity.
  - reflexivity.
  - apply NoDup_singleton.
  - intros member [<-|[]]. split; [reflexivity|vm_compute; discriminate].
  - left. reflexivity.
Defined.

Lemma refused_download_fails_at_unzip_witness :
  download_cell refusing "/home/user" defaults Providers.no_files
  = (Done tt,
     mkWorld (files Providers.no_files)
       (fetched Providers.no_files ++ [link defaults]))
  /\ fetch refusing archive_members "/home/user" defaults Providers.no_files
     = (Fails
          (FileNotFoundError
             (data_path "/home/user" (basename (link defaults)))),
        mkWorld (files Providers.no_files)
          (fetched Providers.no_files ++ [link defaults])).
Proof.
  apply (refused_download_fails_at_unzip refusing archive_members "/home/user"
           defaults Providers.no_files 404 "Not Found").
  - reflexivity.
  - reflexivity.
  - reflexivity.
  - reflexivity.
  - reflexivity.
  - reflexivity.
  - discriminate.
Defined.

Lemma standardize_first_five_of_chicago_witness :
  exists out : frame Decimal.decimal,
    standardize defaults (Some school_frame) = Done out
    /\ columns out = map (rename_label defaults) (columns school_frame)
    /\ (List.length (rows out) <= 5)%nat
    /\ sublist (rows out) (rows school_frame)
    /\ (forall row, In row (rows out) -> nth 1 row NaN = Str "Chicago")
    /\ ((List.length (rows out) < 5)%nat ->
        forall row, In row (rows school_frame) ->
                    nth 1 row NaN = Str "Chicago" -> In row (rows out)).
Proof.
  apply (standardize_first_five_of_chicago defaults school_frame 1).
  - compute_done.
  - reflexivity.
  - discriminate.
  - discriminate.
Defined.

Lemma standardize_without_city_witness :
  standardize city_as_latitude (Some school_frame)
  = Fails (Python (KeyError "CITY")).
Proof.
  apply (standardize_without_city city_as_latitude school_frame).
  right. left. reflexivity.
Defined.

Lemma unknown_extension_leaves_df_unbound_witness :
  schools serving archive_members sheet_reader sheet_reader "/home/user"
    old_spreadsheet old_spreadsheet_in_place
  = (Fails (Python (NameError "df")), old_spreadsheet_in_place).
Proof.
  apply (unknown_extension_leaves_df_unbound serving archive_members
           sheet_reader sheet_reader "/home/user" old_spreadsheet
           old_spreadsheet_in_place).
  - reflexivity.
  - exists "sheet"%string. reflexivity.
  - vm_compute. discriminate.
  - vm_compute. discriminate.
Defined.

Lemma download_without_unzip_misses_target_witness :
  fst (schools serving archive_members sheet_reader sheet_reader "/home/user"
         zipped_csv Providers.no_files)
  = Fails (FileNotFoundError (data_path "/home/user" (target zipped_csv))).
Proof.
  apply (download_without_unzip_misses_target serving archive_members
           sheet_reader sheet_reader "/home/user" zipped_csv
           Providers.no_files 200 "PK archive").
  - reflexivity.
  - reflexivity.
  - reflexivity.
  - vm_compute. discriminate.
  - reflexivity.
  - reflexivity.
  - right. reflexivity.
Defined.

(** The notebook as it stands, on an empty data directory. *)
Example schools_of_chicago :
  fst (schools serving archive_members sheet_reader sheet_reader "/home/user"
         defaults Providers.no_files)
  = Done (mkFrame ["NAME"; "CITY"; "lat"; "lon"]%string
            [ [Str "Ogden Elementary"; Str "Chicago";
               Num (Decimal.mkDecimal 418996 4);
               Num (Decimal.mkDecimal (-876289) 4)];
              [Str "Skinner West"; Str "Chicago";
               Num (Decimal.mkDecimal 418799 4);
               Num (Decimal.mkDecimal (-876600) 4)] ]).
Proof. vm_compute. reflexivity. Qed.

End SchoolsFacts.
